(** * timecontrol: a shallow embedding of the interval timer

    The development follows [timecontrol.h] and [timecontrol.cpp].

    - Unsigned integers of the source ([uint8_t], [uint16_t], [uint32_t])
      are integers of [Z] with the wrap-around written out.
    - The object is a record with one field per data member, under the
      member's name; an assignment to a member is a setter.
    - [millis()] and [micros()] belong to the board.  Every call of the
      source is one argument of the embedded function, in the order of
      the calls, so that the clock may advance between two reads.
    - The two callbacks are function pointers into the sketch.  They are
      functions on a type [W] of everything outside the timer object
      (serial port, pins, ...); a callback is taken not to write to the
      timer's own members.
    - An operation whose behaviour the language leaves undefined
      (division by zero, signed overflow) returns [None]. *)

From Stdlib Require Import ZArith Lia Bool String Ascii DecimalString.
From stdpp Require Import base list.

Local Open Scope Z_scope.

(** ** Machine integers *)

Module Word.

Definition wrap8 (z : Z) : Z := z mod 2 ^ 8.
Definition wrap16 (z : Z) : Z := z mod 2 ^ 16.
Definition wrap32 (z : Z) : Z := z mod 2 ^ 32.

Definition u8 (z : Z) : Prop := 0 <= z < 2 ^ 8.
Definition u32 (z : Z) : Prop := 0 <= z < 2 ^ 32.
Definition i32 (z : Z) : Prop := - 2 ^ 31 <= z < 2 ^ 31.

(** [(int32_t) x] for an [x] of type [uint32_t]: the value with the same
    32 bits. *)
Definition to_int32 (z : Z) : Z :=
  let r := wrap32 z in if r <? 2 ^ 31 then r else r - 2 ^ 32.

(** Signed addition on [int32_t]; an overflow is undefined. *)
Definition add_int32 (a b : Z) : option Z :=
  let s := a + b in
  if (- 2 ^ 31 <=? s) && (s <? 2 ^ 31) then Some s else None.

(** Unsigned division; a zero divisor is undefined. *)
Definition udiv (a b : Z) : option Z :=
  if b =? 0 then None else Some (a / b).

End Word.

Import Word.

#[global] Arguments wrap8 : simpl never.
#[global] Arguments wrap16 : simpl never.
#[global] Arguments wrap32 : simpl never.

(** ** Constants of the header *)

(** [const uint16_t SECONDS_PER_DAY = 86400;] : the initialiser is
    converted to the 16 bits of the declared type. *)
Definition SECONDS_PER_DAY : Z := wrap16 86400.
(** [const uint16_t SECONDS_PER_HOUR = 3600;] *)
Definition SECONDS_PER_HOUR : Z := wrap16 3600.
(** [const uint8_t SECONDS_PER_MINUTE = 60;] *)
Definition SECONDS_PER_MINUTE : Z := wrap8 60.

(** ** The object *)

Section Timer.

(** What the callbacks of the sketch act on. *)
Context {W : Type}.

Record timecontrol : Type := mkTimer {
  _timelapse : Z;
  pMillis : Z;
  _count : Z;
  _state : bool;
  _startTime : Z;
  _repeatCount : Z;
  _pMicros : Z;
  _lastElapsedTime : Z;
  _elapsedCallback : option (Z -> W -> W);
  _useElapsedFirst : bool;
  _elapsedTimes : list Z;
  _elapsedIndex : Z;
  _callback : option (W -> W)
}.

(** Assignments to one member. *)
Definition set_timelapse (v : Z) (t : timecontrol) : timecontrol :=
  mkTimer v (pMillis t) (_count t) (_state t) (_startTime t)
    (_repeatCount t) (_pMicros t) (_lastElapsedTime t) (_elapsedCallback t)
    (_useElapsedFirst t) (_elapsedTimes t) (_elapsedIndex t) (_callback t).

Definition set_pMillis (v : Z) (t : timecontrol) : timecontrol :=
  mkTimer (_timelapse t) v (_count t) (_state t) (_startTime t)
    (_repeatCount t) (_pMicros t) (_lastElapsedTime t) (_elapsedCallback t)
    (_useElapsedFirst t) (_elapsedTimes t) (_elapsedIndex t) (_callback t).

Definition set_count (v : Z) (t : timecontrol) : timecontrol :=
  mkTimer (_timelapse t) (pMillis t) v (_state t) (_startTime t)
    (_repeatCount t) (_pMicros t) (_lastElapsedTime t) (_elapsedCallback t)
    (_useElapsedFirst t) (_elapsedTimes t) (_elapsedIndex t) (_callback t).

Definition set_state (v : bool) (t : timecontrol) : timecontrol :=
  mkTimer (_timelapse t) (pMillis t) (_count t) v (_startTime t)
    (_repeatCount t) (_pMicros t) (_lastElapsedTime t) (_elapsedCallback t)
    (_useElapsedFirst t) (_elapsedTimes t) (_elapsedIndex t) (_callback t).

Definition set_startTime (v : Z) (t : timecontrol) : timecontrol :=
  mkTimer (_timelapse t) (pMillis t) (_count t) (_state t) v
    (_repeatCount t) (_pMicros t) (_lastElapsedTime t) (_elapsedCallback t)
    (_useElapsedFirst t) (_elapsedTimes t) (_elapsedIndex t) (_callback t).

Definition set_repeatCount (v : Z) (t : timecontrol) : timecontrol :=
  mkTimer (_timelapse t) (pMillis t) (_count t) (_state t) (_startTime t)
    v (_pMicros t) (_lastElapsedTime t) (_elapsedCallback t)
    (_useElapsedFirst t) (_elapsedTimes t) (_elapsedIndex t) (_callback t).

Definition set_pMicros (v : Z) (t : timecontrol) : timecontrol :=
  mkTimer (_timelapse t) (pMillis t) (_count t) (_state t) (_startTime t)
    (_repeatCount t) v (_lastElapsedTime t) (_elapsedCallback t)
    (_useElapsedFirst t) (_elapsedTimes t) (_elapsedIndex t) (_callback t).

Definition set_lastElapsedTime (v : Z) (t : timecontrol) : timecontrol :=
  mkTimer (_timelapse t) (pMillis t) (_count t) (_state t) (_startTime t)
    (_repeatCount t) (_pMicros t) v (_elapsedCallback t)
    (_useElapsedFirst t) (_elapsedTimes t) (_elapsedIndex t) (_callback t).

Definition set_elapsedCallback (v : option (Z -> W -> W)) (t : timecontrol)
  : timecontrol :=
  mkTimer (_timelapse t) (pMillis t) (_count t) (_state t) (_startTime t)
    (_repeatCount t) (_pMicros t) (_lastElapsedTime t) v
    (_useElapsedFirst t) (_elapsedTimes t) (_elapsedIndex t) (_callback t).

Definition set_useElapsedFirst (v : bool) (t : timecontrol) : timecontrol :=
  mkTimer (_timelapse t) (pMillis t) (_count t) (_state t) (_startTime t)
    (_repeatCount t) (_pMicros t) (_lastElapsedTime t) (_elapsedCallback t)
    v (_elapsedTimes t) (_elapsedIndex t) (_callback t).

Definition set_elapsedTimes (v : list Z) (t : timecontrol) : timecontrol :=
  mkTimer (_timelapse t) (pMillis t) (_count t) (_state t) (_startTime t)
    (_repeatCount t) (_pMicros t) (_lastElapsedTime t) (_elapsedCallback t)
    (_useElapsedFirst t) v (_elapsedIndex t) (_callback t).

Definition set_elapsedIndex (v : Z) (t : timecontrol) : timecontrol :=
  mkTimer (_timelapse t) (pMillis t) (_count t) (_state t) (_startTime t)
    (_repeatCount t) (_pMicros t) (_lastElapsedTime t) (_elapsedCallback t)
    (_useElapsedFirst t) (_elapsedTimes t) v (_callback t).

Definition set_callback (v : option (W -> W)) (t : timecontrol)
  : timecontrol :=
  mkTimer (_timelapse t) (pMillis t) (_count t) (_state t) (_startTime t)
    (_repeatCount t) (_pMicros t) (_lastElapsedTime t) (_elapsedCallback t)
    (_useElapsedFirst t) (_elapsedTimes t) (_elapsedIndex t) v.

(** The states the class keeps itself in: every member within its type,
    ten samples, and the write index inside the array. *)
Record wf (t : timecontrol) : Prop := mkWf {
  wf_timelapse : u32 (_timelapse t);
  wf_pMillis : u32 (pMillis t);
  wf_count : u32 (_count t);
  wf_startTime : u32 (_startTime t);
  wf_repeatCount : u32 (_repeatCount t);
  wf_pMicros : u32 (_pMicros t);
  wf_lastElapsedTime : u32 (_lastElapsedTime t);
  wf_samples : Forall u32 (_elapsedTimes t);
  wf_length : length (_elapsedTimes t) = 10%nat;
  wf_index : 0 <= _elapsedIndex t < 10
}.

(** ** Constructors *)

(** [memset(_elapsedTimes, 0, sizeof(_elapsedTimes))] *)
Definition zeroed_samples : list Z := replicate 10 0.

(** [timecontrol(timelapse, state, previousMillis)]; [ms] and [us] are the
    reads of [millis()] and [micros()]. *)
Definition timecontrol_full (ms us : Z) (timelapse : Z) (state : bool)
    (previousMillis : Z) : timecontrol :=
  mkTimer timelapse previousMillis 0 state ms 0 us 0 None false
    zeroed_samples 0 None.

(** [timecontrol(timelapse)]: [pMillis = _startTime]. *)
Definition timecontrol_lapse (ms us : Z) (timelapse : Z) : timecontrol :=
  mkTimer timelapse ms 0 true ms 0 us 0 None false zeroed_samples 0 None.

(** [timecontrol()] *)
Definition timecontrol_default (ms us : Z) : timecontrol :=
  timecontrol_lapse ms us 0.

(** ** Inline members of the header *)

Definition stop (t : timecontrol) : timecontrol := set_state false t.
Definition resume (t : timecontrol) : timecontrol := set_state true t.

Definition resumeFromInterrupt (t : timecontrol) : timecontrol :=
  if negb (_state t) then resume t else t.

Definition setRepeatCount (count : Z) (t : timecontrol) : timecontrol :=
  set_repeatCount count t.

Definition setCallback (cb : option (W -> W)) (t : timecontrol)
  : timecontrol := set_callback cb t.

Definition setElapsedCallback (cb : option (Z -> W -> W)) (t : timecontrol)
  : timecontrol := set_elapsedCallback cb t.

Definition setPriorityCallback (useElapsedFirst : bool) (t : timecontrol)
  : timecontrol := set_useElapsedFirst useElapsedFirst t.

(** [reset()], with the reads of [millis()] and [micros()]. *)
Definition reset (ms us : Z) (t : timecontrol) : timecontrol :=
  let t := set_pMillis ms t in
  let t := set_pMicros us t in
  let t := set_count 0 t in
  set_lastElapsedTime 0 t.

(** [getElapsedTime()]; [millis()] is read only when running. *)
Definition getElapsedTime (ms : Z) (t : timecontrol) : Z :=
  if _state t then wrap32 (ms - pMillis t) else 0.

(** [adjustTimelapse(adjustment)], [adjustment] an [int32_t]. *)
Definition adjustTimelapse (adjustment : Z) (t : timecontrol)
  : option timecontrol :=
  match add_int32 (to_int32 (_timelapse t)) adjustment with
  | None => None
  | Some newTimelapse =>
      Some (set_timelapse
              (if 0 <? newTimelapse then wrap32 newTimelapse else 0) t)
  end.

(** ** The event shared by the three checks and the interrupt *)

(** [if (f) f();] *)
Definition call (f : option (W -> W)) (w : W) : W :=
  match f with Some g => g w | None => w end.

(** [if (f) f(d);] *)
Definition call_elapsed (f : option (Z -> W -> W)) (d : Z) (w : W) : W :=
  match f with Some g => g d w | None => w end.

(** The [if (_useElapsedFirst) ... else ...] block. *)
Definition fire (t : timecontrol) (w : W) : W :=
  if _useElapsedFirst t then
    let w := call_elapsed (_elapsedCallback t) (_lastElapsedTime t) w in
    call (_callback t) w
  else
    let w := call (_callback t) w in
    call_elapsed (_elapsedCallback t) (_lastElapsedTime t) w.

(** [_elapsedTimes[_elapsedIndex] = _lastElapsedTime;
    _elapsedIndex = (_elapsedIndex + 1) % 10;] *)
Definition record_sample (t : timecontrol) : timecontrol :=
  let t := set_elapsedTimes
             (<[Z.to_nat (_elapsedIndex t) := _lastElapsedTime t]>
                (_elapsedTimes t)) t in
  set_elapsedIndex (wrap8 (Z.rem (_elapsedIndex t + 1) 10)) t.

(** [_repeatCount > 0 && _count >= _repeatCount] *)
Definition limit_reached (t : timecontrol) : bool :=
  (0 <? _repeatCount t) && (_repeatCount t <=? _count t).

(** ** [elapsed()] *)

Definition elapsed (ms us : Z) (t : timecontrol) (w : W)
  : bool * timecontrol * W :=
  if negb (_state t) then (false, t, w) else
  let current := ms in
  if _timelapse t <=? wrap32 (current - pMillis t) then
    let t := set_lastElapsedTime (wrap32 (current - pMillis t)) t in
    let t := set_pMillis current t in
    let t := set_pMicros us t in
    let t := record_sample t in
    let t := set_count (wrap32 (_count t + 1)) t in
    let w := fire t w in
    let t := if limit_reached t then stop t else t in
    (true, t, w)
  else (false, t, w).

(** [loop() { timer.elapsed(); }]: one call per pair of clock reads. *)
Fixpoint poll (reads : list (Z * Z)) (t : timecontrol) (w : W)
  : list bool * timecontrol * W :=
  match reads with
  | [] => ([], t, w)
  | (ms, us) :: rest =>
      let '(fired, t, w) := elapsed ms us t w in
      let '(more, t, w) := poll rest t w in
      (fired :: more, t, w)
  end.

(** Every read of [millis()] in the list comes at least [lapse] ticks
    after the previous one, the first after [prev]. *)
Fixpoint on_time (lapse prev : Z) (reads : list (Z * Z)) : Prop :=
  match reads with
  | [] => True
  | (ms, _) :: rest => lapse <= wrap32 (ms - prev) /\ on_time lapse ms rest
  end.

(** ** [remainingTime()]

    [ms] and [us] are the reads inside [elapsed()], [ms'] the read that
    follows it. *)
Definition remainingTime (ms us ms' : Z) (t : timecontrol) (w : W)
  : Z * timecontrol * W :=
  if negb (_state t) then (0, t, w) else
  let '(fired, t, w) := elapsed ms us t w in
  if fired then (0, t, w) else
  let current := ms' in
  let elapsedTime := wrap32 (current - pMillis t) in
  (if elapsedTime <? _timelapse t
   then wrap32 (_timelapse t - elapsedTime) else 0, t, w).

(** ** [elapsedSeconds()]

    [millis()] is read twice: [ms] for [currentSec], [ms'] for the new
    [pMillis]. *)
Definition elapsedSeconds (ms ms' us : Z) (t : timecontrol) (w : W)
  : bool * timecontrol * W :=
  if negb (_state t) then (false, t, w) else
  let currentSec := ms / 1000 in
  let previousSec := pMillis t / 1000 in
  let timelapseSec := _timelapse t / 1000 in
  if timelapseSec <=? wrap32 (currentSec - previousSec) then
    let t := set_pMillis ms' t in
    let t := set_pMicros us t in
    let t := set_lastElapsedTime
               (wrap32 (wrap32 (currentSec - previousSec) * 1000)) t in
    let t := record_sample t in
    let t := set_count (wrap32 (_count t + 1)) t in
    let w := fire t w in
    let t := if limit_reached t then stop t else t in
    (true, t, w)
  else (false, t, w).

(** ** [elapsedMicros()] *)
Definition elapsedMicros (us ms : Z) (t : timecontrol) (w : W)
  : bool * timecontrol * W :=
  if negb (_state t) then (false, t, w) else
  let current := us in
  if _timelapse t <=? wrap32 (current - _pMicros t) then
    let t := set_lastElapsedTime (wrap32 (current - _pMicros t) / 1000) t in
    let t := set_pMicros current t in
    let t := set_pMillis ms t in
    let t := record_sample t in
    let t := set_count (wrap32 (_count t + 1)) t in
    let w := fire t w in
    let t := if limit_reached t then stop t else t in
    (true, t, w)
  else (false, t, w).

(** ** [interruptHandler()]

    [inst] is the static [_instance]; [ms] is the read inside
    [getElapsedTime()], [ms'] the one assigned to [pMillis]. *)
Definition interruptHandler (ms ms' us : Z) (inst : option timecontrol)
    (w : W) : option timecontrol * W :=
  match inst with
  | None => (None, w)
  | Some t =>
      match _callback t with
      | None => (Some t, w)
      | Some _ =>
          let t := set_count (wrap32 (_count t + 1)) t in
          let t := set_lastElapsedTime (getElapsedTime ms t) t in
          let t := set_pMillis ms' t in
          let t := set_pMicros us t in
          let w := fire t w in
          let t := record_sample t in
          let t := if limit_reached t then stop t
                   else resumeFromInterrupt t in
          (Some t, w)
      end
  end.

(** ** [getAverageElapsedTime(samples)] *)

(** [_elapsedTimes[idx]] *)
Definition sample_at (idx : Z) (t : timecontrol) : Z :=
  default 0 (_elapsedTimes t !! Z.to_nat idx).

(** The [for] loop with [n] rounds left, at counter [i]. *)
Fixpoint average_loop (n : nat) (i : Z) (t : timecontrol) (sum : Z) : Z :=
  match n with
  | O => sum
  | S n' =>
      let idx := wrap8 (Z.rem (_elapsedIndex t - 1 - i + 10) 10) in
      average_loop n' (wrap8 (i + 1)) t (wrap32 (sum + sample_at idx t))
  end.

Definition getAverageElapsedTime (samples : Z) (t : timecontrol)
  : option Z :=
  let samples := if 10 <? samples then 10 else samples in
  if _count t =? 0 then Some 0 else
  let sum := 0 in
  let validSamples := wrap8 (Z.min samples (_count t)) in
  let sum := average_loop (Z.to_nat validSamples) 0 t sum in
  udiv sum validSamples.

(** The entries the loop reads: [n] of them, walking backward from the
    slot written last. *)
Definition recent_samples (n : nat) (t : timecontrol) : list Z :=
  map (fun j => sample_at ((_elapsedIndex t - 1 - j) mod 10) t)
      (seqZ 0 (Z.of_nat n)).

(** ** [countdown(duration, callback)]

    [ms] is the read taken when arming, [ms'] the read that follows. *)
Definition countdown (ms ms' : Z) (duration : Z) (callback : option (W -> W))
    (t : timecontrol) (w : W) : Z * timecontrol * W :=
  let t := if negb (_state t)
           then set_state true (set_timelapse duration (set_pMillis ms t))
           else t in
  let elapsed := wrap32 (ms' - pMillis t) in
  if _timelapse t <=? elapsed then (0, set_state false t, call callback w)
  else (wrap32 (_timelapse t - elapsed), t, w).

(** ** The other inline members of the header *)

Definition getTimelapse (t : timecontrol) : Z := _timelapse t.
Definition setTimelapse (timelapse : Z) (t : timecontrol) : timecontrol :=
  set_timelapse timelapse t.
Definition setState (state : bool) (t : timecontrol) : timecontrol :=
  set_state state t.
Definition getState (t : timecontrol) : bool := _state t.
Definition isRunning (t : timecontrol) : bool := _state t.
Definition toggleState (t : timecontrol) : timecontrol :=
  set_state (negb (_state t)) t.
Definition elapsedCount (t : timecontrol) : Z := _count t.
Definition getRepeatCount (t : timecontrol) : Z := _repeatCount t.
Definition getLastElapsedTime (t : timecontrol) : Z := _lastElapsedTime t.
Definition setStartTime (startTime : Z) (t : timecontrol) : timecontrol :=
  set_startTime startTime t.

(** [pauseAndGetElapsed()] *)
Definition pauseAndGetElapsed (ms : Z) (t : timecontrol)
  : Z * timecontrol :=
  let elapsed := getElapsedTime ms t in
  (elapsed, stop t).

(** [restart()] *)
Definition restart (ms us : Z) (t : timecontrol) : timecontrol :=
  resume (reset ms us t).

(** [runOnce()] *)
Definition runOnce (t : timecontrol) : timecontrol :=
  resume (set_repeatCount 1 t).

(** [getTotalElapsedTime()] *)
Definition getTotalElapsedTime (ms : Z) (t : timecontrol) : Z :=
  wrap32 (ms - _startTime t).

(** [isOverdue()]: [_timelapse * 2] is a product of 32 bits. *)
Definition isOverdue (ms : Z) (t : timecontrol) : bool :=
  _state t && (wrap32 (_timelapse t * 2) <? wrap32 (ms - pMillis t)).

(** [fullReset()] *)
Definition fullReset (ms us : Z) (t : timecontrol) : timecontrol :=
  let t := set_startTime ms t in
  let t := set_pMillis (_startTime t) t in
  let t := set_pMicros us t in
  let t := set_count 0 t in
  let t := set_lastElapsedTime 0 t in
  set_state true t.

(** [elapsedSince(referenceTime)] *)
Definition elapsedSince (ms : Z) (referenceTime : Z) (t : timecontrol)
  : bool :=
  _timelapse t <=? wrap32 (ms - referenceTime).

(** [toggleRepeat()] *)
Definition toggleRepeat (t : timecontrol) : timecontrol :=
  set_repeatCount (if _repeatCount t =? 0 then 1 else 0) t.

(** [elapsedInterval(interval)] *)
Definition elapsedInterval (ms : Z) (interval : Z) (t : timecontrol)
  : bool :=
  interval <=? wrap32 (ms - pMillis t).

(** [getRemainingCount()] *)
Definition getRemainingCount (t : timecontrol) : Z :=
  if (0 <? _repeatCount t) && (_count t <? _repeatCount t)
  then wrap32 (_repeatCount t - _count t) else 0.

(** [isTimeUp(timeout)] *)
Definition isTimeUp (ms : Z) (timeout : Z) (t : timecontrol) : bool :=
  timeout <=? getTotalElapsedTime ms t.

(** ** [elapsedExec(function)] *)
Definition elapsedExec (ms us : Z) (function : W -> W) (t : timecontrol)
    (w : W) : timecontrol * W :=
  let '(fired, t, w) := elapsed ms us t w in
  if fired then (t, function w) else (t, w).

(** ** [pauseAndResumeLater(elapsedOut)]

    The reference parameter is passed in and handed back. *)
Definition pauseAndResumeLater (ms us : Z) (elapsedOut : Z)
    (t : timecontrol) : Z * timecontrol :=
  if _state t then
    let elapsedOut := getElapsedTime ms t in
    (elapsedOut, stop t)
  else if 0 <? elapsedOut then
    let t := set_pMillis (wrap32 (ms - elapsedOut)) t in
    let t := set_pMicros us t in
    let t := resume t in
    (0, t)
  else (elapsedOut, t).

(** ** [pauseAll()], on the static [_instance] *)
Definition pauseAll (inst : option timecontrol) : option timecontrol :=
  match inst with
  | Some t => Some (stop t)
  | None => None
  end.

End Timer.

Arguments timecontrol W : clear implicits.

(** ** [convertTime(time, direction)] and [millisToSeconds()] *)

Inductive TimeDirection : Type :=
| MillisecondsToSeconds
| SecondsToMilliseconds.

Definition convertTime (time : Z) (direction : TimeDirection) : Z :=
  match direction with
  | MillisecondsToSeconds => time / 1000
  | SecondsToMilliseconds => wrap32 (time * 1000)
  end.

Definition millisToSeconds (ms : Z) : Z := ms / 1000.

(** ** [wait(duration)]

    [reads] are the values the successive calls of [millis()] return, the
    first one being [start]; the result is what is left of them when the
    loop is over, and [None] when the reads run out before that. *)
Fixpoint wait_loop (start duration : Z) (reads : list Z)
  : option (list Z) :=
  match reads with
  | [] => None
  | ms :: rest =>
      if wrap32 (ms - start) <? duration
      then wait_loop start duration rest
      else Some rest
  end.

Definition wait (duration : Z) (reads : list Z) : option (list Z) :=
  match reads with
  | [] => None
  | start :: rest => wait_loop start duration rest
  end.

(** ** [secToTime(sec)] *)

Module Format.

(** The value [printf] reads for a [%d] when it was passed an unsigned
    argument narrower than 32 bits; [int_bits] is the width of [int]
    (16 on AVR boards, 32 elsewhere). *)
Definition as_int (int_bits : Z) (v : Z) : Z :=
  let r := v mod 2 ^ int_bits in
  if r <? 2 ^ (int_bits - 1) then r else r - 2 ^ int_bits.

Local Open Scope string_scope.

(** [%d] *)
Definition fmt_d (v : Z) : string := NilZero.string_of_int (Z.to_int v).

(** [%02d] *)
Definition fmt_02d (v : Z) : string :=
  let s := fmt_d v in
  if (String.length s <? 2)%nat then "0" ++ s else s.

(** [snprintf(buf, size, ...)] keeps at most [size - 1] characters. *)
Definition snprintf (size : nat) (s : string) : string :=
  String.substring 0 (size - 1) s.

(** The contents of the static [_buffer[16]] that is returned. *)
Definition secToTime (int_bits : Z) (sec : Z) : string :=
  let days := wrap16 (sec / SECONDS_PER_DAY)%Z in
  let hours := wrap8 ((sec mod SECONDS_PER_DAY) / SECONDS_PER_HOUR)%Z in
  let minutes :=
    wrap8 ((sec mod SECONDS_PER_HOUR) / SECONDS_PER_MINUTE)%Z in
  let seconds := wrap8 (sec mod SECONDS_PER_MINUTE)%Z in
  if (0 <? days)%Z then
    snprintf 16 (fmt_d (as_int int_bits days) ++ ":" ++
                 fmt_02d (as_int int_bits hours) ++ ":" ++
                 fmt_02d (as_int int_bits minutes) ++ ":" ++
                 fmt_02d (as_int int_bits seconds))
  else
    snprintf 16 (fmt_02d (as_int int_bits hours) ++ ":" ++
                 fmt_02d (as_int int_bits minutes) ++ ":" ++
                 fmt_02d (as_int int_bits seconds)).

(** [printTime(sec)] and [printRunTime()], the latter with the read of
    [millis()]. *)
Definition printTime (int_bits : Z) (sec : Z) : string :=
  secToTime int_bits sec.

Definition printRunTime (int_bits : Z) (ms : Z) : string :=
  secToTime int_bits (ms / 1000)%Z.

(** [formatElapsedTime(buffer, bufferSize)]: the contents of [buffer]
    after the call, [buffer] being its contents before.  With a size of 0
    [snprintf] writes nothing. *)
Definition formatElapsedTime {W : Type} (int_bits : Z) (ms : Z)
    (buffer : string) (bufferSize : nat) (t : timecontrol W) : string :=
  let elapsedSec := (getElapsedTime ms t / 1000)%Z in
  let hours := wrap8 (elapsedSec / SECONDS_PER_HOUR)%Z in
  let minutes :=
    wrap8 ((elapsedSec mod SECONDS_PER_HOUR) / SECONDS_PER_MINUTE)%Z in
  let seconds := wrap8 (elapsedSec mod SECONDS_PER_MINUTE)%Z in
  match bufferSize with
  | O => buffer
  | S _ =>
      snprintf bufferSize (fmt_02d (as_int int_bits hours) ++ ":" ++
                           fmt_02d (as_int int_bits minutes) ++ ":" ++
                           fmt_02d (as_int int_bits seconds))
  end.

(** The layout as the specification words it: [HH:MM:SS], with the days
    in front when there are any, a day being 86400 seconds. *)
Definition hms (sec : Z) : string :=
  fmt_02d ((sec mod 86400) / 3600)%Z ++ ":" ++
  fmt_02d ((sec mod 3600) / 60)%Z ++ ":" ++ fmt_02d (sec mod 60)%Z.

Definition dhms (sec : Z) : string :=
  if (0 <? sec / 86400)%Z then fmt_d (sec / 86400)%Z ++ ":" ++ hms sec
  else hms sec.

End Format.

(** ** A sketch to run the timer in

    The outside world is the list of callback calls made so far. *)

Module Sketch.

Inductive event : Type :=
| Simple
| WithTime (d : Z)
| Finished.

Definition world : Type := list event.

Definition simpleAction : world -> world := fun w => w ++ [Simple].
Definition showTime : Z -> world -> world := fun d w => w ++ [WithTime d].
Definition finished : world -> world := fun w => w ++ [Finished].

(** [timecontrol timer(1000);] with a repeat limit of three, running
    since tick 0. *)
Definition three_shots : timecontrol world :=
  setRepeatCount 3 (timecontrol_lapse 0 0 1000).

(** [timecontrol timer(100); timer.runOnce();] *)
Definition one_shot : timecontrol world :=
  resume (setRepeatCount 1 (timecontrol_lapse 0 0 100)).

(** A timer on which only [setElapsedCallback(showTime)] was called. *)
Definition only_elapsed_callback : timecontrol world :=
  setElapsedCallback (Some showTime) (timecontrol_lapse 0 0 1000).

(** A timer with both callbacks, the one with the duration first. *)
Definition both_callbacks : timecontrol world :=
  setPriorityCallback true
    (setElapsedCallback (Some showTime)
       (setCallback (Some simpleAction) (timecontrol_lapse 0 0 1000))).

(** [timecontrol countdownTimer;] of the countdown example, built at
    tick 0. *)
Definition countdownTimer : timecontrol world := timecontrol_default 0 0.

(** A timer built paused: [timecontrol t(0, false, 0);] *)
Definition paused_timer : timecontrol world :=
  timecontrol_full 0 0 0 false 0.

(** A timer with one recorded event of 100 ms. *)
Definition after_one_event : timecontrol world :=
  snd (fst (elapsed 100 100000 (timecontrol_lapse 0 0 100) [])).

(** A timer of half a second whose last event came 296 ms before the
    millisecond counter wrapped. *)
Definition before_wrap : timecontrol world :=
  timecontrol_full 0 0 500 true 4294967000.

(** A timer whose interval is 3000000000 ms. *)
Definition long_interval : timecontrol world :=
  timecontrol_lapse 0 0 3000000000.

End Sketch.

(** * Properties *)

(** ** Machine integers *)

Lemma wrap32_range (z : Z) : u32 (wrap32 z).
Proof. unfold u32, wrap32. apply Z.mod_pos_bound. lia. Qed.

Lemma wrap32_small (z : Z) : u32 z -> wrap32 z = z.
Proof. unfold u32, wrap32. intros H. apply Z.mod_small. exact H. Qed.

Lemma wrap8_small (z : Z) : u8 z -> wrap8 z = z.
Proof. unfold u8, wrap8. intros H. apply Z.mod_small. exact H. Qed.

Lemma next_index (i : Z) :
  0 <= i < 10 -> wrap8 (Z.rem (i + 1) 10) = (i + 1) mod 10.
Proof.
  intros Hi. rewrite Z.rem_mod_nonneg by lia.
  apply wrap8_small. unfold u8.
  pose proof (Z.mod_pos_bound (i + 1) 10). lia.
Qed.

(** Runs the assignments of a method on an object given by its members
    (after [destruct t]). *)
Ltac assign :=
  cbv [stop resume resumeFromInterrupt record_sample limit_reached fire
       getElapsedTime set_timelapse set_pMillis set_count set_state
       set_startTime set_repeatCount set_pMicros set_lastElapsedTime
       set_elapsedCallback set_useElapsedFirst set_elapsedTimes
       set_elapsedIndex set_callback
       _timelapse pMillis _count _state _startTime _repeatCount _pMicros
       _lastElapsedTime _elapsedCallback _useElapsedFirst _elapsedTimes
       _elapsedIndex _callback fst snd negb] in *.

(** Reads the members of an object that is written out. *)
Ltac fields :=
  cbn [_timelapse pMillis _count _state _startTime _repeatCount _pMicros
       _lastElapsedTime _elapsedCallback _useElapsedFirst _elapsedTimes
       _elapsedIndex _callback] in *.

Section TimerFacts.

Context {W : Type}.
Implicit Types (t : timecontrol W) (w : W).

(** ** The invariant of the object *)

Lemma record_sample_wf t : wf t -> wf (record_sample t).
Proof.
  intros [H1 H2 H3 H4 H5 H6 H7 H8 H9 H10].
  constructor; simpl; try assumption.
  - apply Forall_insert; assumption.
  - rewrite length_insert. assumption.
  - rewrite next_index by assumption.
    pose proof (Z.mod_pos_bound (_elapsedIndex t + 1) 10). lia.
Qed.

Lemma constructor_wf (ms us timelapse : Z) :
  u32 ms -> u32 us -> u32 timelapse ->
  wf (timecontrol_lapse (W := W) ms us timelapse).
Proof.
  intros Hms Hus Hl. constructor; simpl; try assumption;
    try (unfold u32; lia); try reflexivity.
  unfold zeroed_samples. apply Forall_replicate. unfold u32. lia.
Qed.

Lemma elapsed_wf (ms us : Z) t w :
  wf t -> u32 ms -> u32 us -> wf (elapsed ms us t w).1.2.
Proof.
  intros Hwf Hms Hus. unfold elapsed.
  destruct (_state t); simpl; [|assumption].
  destruct (_timelapse t <=? wrap32 (ms - pMillis t)); simpl; [|assumption].
  match goal with |- wf (if ?b then stop ?x else ?x) =>
    assert (Hx : wf x); [|destruct b; [destruct Hx; constructor; assumption
                                       | exact Hx]] end.
  match goal with |- wf (set_count _ (record_sample ?y)) =>
    assert (Hy : wf y) end.
  { destruct Hwf. constructor; simpl; try assumption. apply wrap32_range. }
  apply record_sample_wf in Hy. destruct Hy.
  constructor; simpl in *; try assumption. apply wrap32_range.
Qed.

(** ** [elapsed()] *)

Lemma elapsed_paused (ms us : Z) t w :
  _state t = false -> elapsed ms us t w = (false, t, w).
Proof. intros H. unfold elapsed. rewrite H. reflexivity. Qed.

Lemma elapsed_early (ms us : Z) t w :
  _state t = true -> wrap32 (ms - pMillis t) < _timelapse t ->
  elapsed ms us t w = (false, t, w).
Proof.
  intros H Hlt. unfold elapsed. rewrite H. simpl.
  destruct (Z.leb_spec (_timelapse t) (wrap32 (ms - pMillis t))); [lia|].
  reflexivity.
Qed.

(** A successful check, member by member. *)
Lemma elapsed_due (ms us : Z) t w :
  0 <= _elapsedIndex t < 10 ->
  _state t = true -> _timelapse t <= wrap32 (ms - pMillis t) ->
  let d := wrap32 (ms - pMillis t) in
  let n := wrap32 (_count t + 1) in
  elapsed ms us t w =
    (true,
     {| _timelapse := _timelapse t;
        pMillis := ms;
        _count := n;
        _state := negb ((0 <? _repeatCount t) && (_repeatCount t <=? n));
        _startTime := _startTime t;
        _repeatCount := _repeatCount t;
        _pMicros := us;
        _lastElapsedTime := d;
        _elapsedCallback := _elapsedCallback t;
        _useElapsedFirst := _useElapsedFirst t;
        _elapsedTimes :=
          <[Z.to_nat (_elapsedIndex t) := d]> (_elapsedTimes t);
        _elapsedIndex := (_elapsedIndex t + 1) mod 10;
        _callback := _callback t |},
     if _useElapsedFirst t
     then call (_callback t) (call_elapsed (_elapsedCallback t) d w)
     else call_elapsed (_elapsedCallback t) d (call (_callback t) w)).
Proof.
  destruct t as [lapse pm cnt st start rep pu last ecb first ring idx cb].
  assign. intros Hi -> Hle. unfold elapsed. assign.
  destruct (Z.leb_spec lapse (wrap32 (ms - pm))); [|lia].
  rewrite next_index by assumption.
  destruct ((0 <? rep) && (rep <=? wrap32 (cnt + 1))), first; reflexivity.
Qed.

(** C3: [elapsed()] returns false and changes nothing when the timer is
    not running, or when it is running and [now - pMillis] (unsigned, 32
    bits) is below the interval.  When it is running and the difference
    reaches the interval, it returns true, stores the difference as the
    last duration, moves [pMillis] to [now], writes the duration at the
    ring's index and advances the index modulo 10, increments the count,
    calls the callbacks in the order [_useElapsedFirst] selects, and stops
    the timer if the repeat limit is reached. *)
Theorem elapsed_check (ms us : Z) t w :
  0 <= _elapsedIndex t < 10 ->
  let d := wrap32 (ms - pMillis t) in
  (_state t = false -> elapsed ms us t w = (false, t, w)) /\
  (_state t = true -> d < _timelapse t ->
   elapsed ms us t w = (false, t, w)) /\
  (_state t = true -> _timelapse t <= d ->
   exists t',
     elapsed ms us t w =
       (true, t',
        if _useElapsedFirst t
        then call (_callback t) (call_elapsed (_elapsedCallback t) d w)
        else call_elapsed (_elapsedCallback t) d (call (_callback t) w)) /\
     _lastElapsedTime t' = d /\
     pMillis t' = ms /\
     _pMicros t' = us /\
     _elapsedTimes t' =
       <[Z.to_nat (_elapsedIndex t) := d]> (_elapsedTimes t) /\
     _elapsedIndex t' = (_elapsedIndex t + 1) mod 10 /\
     _count t' = wrap32 (_count t + 1) /\
     _state t' =
       negb ((0 <? _repeatCount t) && (_repeatCount t <=? _count t')) /\
     _timelapse t' = _timelapse t /\
     _startTime t' = _startTime t /\
     _repeatCount t' = _repeatCount t /\
     _callback t' = _callback t /\
     _elapsedCallback t' = _elapsedCallback t /\
     _useElapsedFirst t' = _useElapsedFirst t).
Proof.
  intros Hi d. split; [|split].
  - apply elapsed_paused.
  - apply elapsed_early.
  - intros Hrun Hdue. eexists. split.
    + apply elapsed_due; assumption.
    + cbn [_timelapse pMillis _count _state _startTime _repeatCount _pMicros
           _lastElapsedTime _elapsedCallback _useElapsedFirst _elapsedTimes
           _elapsedIndex _callback].
      repeat split; reflexivity.
Qed.

(** ** Repeat limit *)

Lemma elapsed_fires (ms us : Z) t w :
  _state t = true -> _timelapse t <= wrap32 (ms - pMillis t) ->
  exists t' w',
    elapsed ms us t w = (true, t', w') /\
    _count t' = wrap32 (_count t + 1) /\
    _repeatCount t' = _repeatCount t /\
    _timelapse t' = _timelapse t /\
    pMillis t' = ms /\
    _state t' =
      negb ((0 <? _repeatCount t) && (_repeatCount t <=? _count t')).
Proof.
  destruct t as [lapse pm cnt st start rep pu last ecb first ring idx cb].
  fields. intros -> Hdue. unfold elapsed. assign.
  destruct (Z.leb_spec lapse (wrap32 (ms - pm))); [|lia].
  do 2 eexists. split; [reflexivity|].
  destruct ((0 <? rep) && (rep <=? wrap32 (cnt + 1))) eqn:E;
    fields; rewrite E; repeat split; reflexivity.
Qed.

Lemma poll_paused (reads : list (Z * Z)) t w :
  _state t = false ->
  poll reads t w = (replicate (length reads) false, t, w).
Proof.
  intros Hoff. induction reads as [|[ms us] rest IH]; [reflexivity|].
  cbn [poll]. rewrite elapsed_paused by assumption. rewrite IH.
  reflexivity.
Qed.

Lemma poll_until_limit (reads : list (Z * Z)) : forall t w,
  _state t = true ->
  0 <= _count t < _repeatCount t -> _repeatCount t < 2 ^ 32 ->
  _count t + Z.of_nat (length reads) = _repeatCount t ->
  on_time (_timelapse t) (pMillis t) reads ->
  exists t' w',
    poll reads t w = (replicate (length reads) true, t', w') /\
    _state t' = false /\ _count t' = _repeatCount t.
Proof.
  induction reads as [|[ms us] rest IH]; intros t w Hrun Hc Hr Hn Hon.
  - cbn [length] in Hn. lia.
  - cbn [on_time] in Hon. destruct Hon as [Hdue Hrest].
    destruct (elapsed_fires ms us t w Hrun Hdue)
      as (t1 & w1 & He & Hc1 & Hr1 & Hl1 & Hp1 & Hs1).
    rewrite wrap32_small in Hc1 by (unfold u32; lia).
    cbn [poll length]. rewrite He. cbn [length] in Hn.
    destruct rest as [|r rest'].
    + cbn [poll replicate]. exists t1, w1. split; [reflexivity|].
      cbn [length] in Hn. rewrite Hs1, Hc1. split; [|lia].
      replace (0 <? _repeatCount t) with true by (symmetry; lia).
      replace (_repeatCount t <=? _count t + 1) with true
        by (symmetry; apply Z.leb_le; lia).
      reflexivity.
    + assert (Hrun1 : _state t1 = true).
      { rewrite Hs1, Hc1. cbn [length] in Hn.
        replace (_repeatCount t <=? _count t + 1) with false
          by (symmetry; apply Z.leb_gt; lia).
        rewrite andb_false_r. reflexivity. }
      destruct (IH t1 w1) as (t' & w' & Hp & Hs & Hc'); try assumption.
      * rewrite Hc1, Hr1. cbn [length] in Hn. lia.
      * rewrite Hr1. assumption.
      * rewrite Hc1, Hr1. lia.
      * rewrite Hl1, Hp1. assumption.
      * rewrite Hp. exists t', w'. split; [reflexivity|].
        split; [assumption|]. rewrite Hc', Hr1. reflexivity.
Qed.

Lemma poll_unlimited (reads : list (Z * Z)) : forall t w,
  _repeatCount t = 0 -> _state t = true ->
  _state (poll reads t w).1.2 = true /\
  _repeatCount (poll reads t w).1.2 = 0.
Proof.
  induction reads as [|[ms us] rest IH]; intros t w Hr Hrun.
  - split; assumption.
  - cbn [poll].
    destruct (Z.lt_ge_cases (wrap32 (ms - pMillis t)) (_timelapse t))
      as [Hlt|Hge].
    + rewrite elapsed_early by assumption.
      specialize (IH t w Hr Hrun).
      destruct (poll rest t w) as [[more t'] w']. exact IH.
    + destruct (elapsed_fires ms us t w Hrun Hge)
        as (t1 & w1 & He & _ & Hr1 & _ & _ & Hs1).
      rewrite He. rewrite Hr in Hs1, Hr1. cbn in Hs1.
      specialize (IH t1 w1 Hr1 Hs1).
      destruct (poll rest t1 w1) as [[more t'] w']. exact IH.
Qed.

(** C4: on a running timer with a repeat limit above 0, the call of
    [elapsed()] that comes on time and brings the count to the limit or
    above returns true and leaves the timer stopped, and every later call
    returns false and changes neither the timer nor the world.  Counting
    from below the limit [n], the calls that come on time all return
    true, and it is the one that brings the count to [n] that stops the
    timer.  With a repeat limit of 0 no call of [elapsed()] stops the
    timer. *)
Theorem repeat_limit_pauses (reads : list (Z * Z)) t w :
  _state t = true ->
  (forall ms us,
     _timelapse t <= wrap32 (ms - pMillis t) ->
     0 < _repeatCount t <= wrap32 (_count t + 1) ->
     exists t' w',
       elapsed ms us t w = (true, t', w') /\
       _state t' = false /\
       forall ms2 us2 w2, elapsed ms2 us2 t' w2 = (false, t', w2)) /\
  (0 <= _count t < _repeatCount t -> _repeatCount t < 2 ^ 32 ->
   _count t + Z.of_nat (length reads) = _repeatCount t ->
   on_time (_timelapse t) (pMillis t) reads ->
   exists t' w',
     poll reads t w = (replicate (length reads) true, t', w') /\
     _state t' = false /\
     _count t' = _repeatCount t /\
     forall ms us w2, elapsed ms us t' w2 = (false, t', w2)) /\
  (_repeatCount t = 0 -> _state (poll reads t w).1.2 = true).
Proof.
  intros Hrun. split; [|split].
  - intros ms us Hdue Hlim.
    destruct (elapsed_fires ms us t w Hrun Hdue)
      as (t' & w' & He & Hc & _ & _ & _ & Hs).
    assert (Hoff : _state t' = false).
    { rewrite Hs, Hc.
      replace (0 <? _repeatCount t) with true by (symmetry; lia).
      replace (_repeatCount t <=? wrap32 (_count t + 1)) with true
        by (symmetry; apply Z.leb_le; lia).
      reflexivity. }
    exists t', w'. split; [exact He|]. split; [exact Hoff|].
    intros ms2 us2 w2. apply elapsed_paused. exact Hoff.
  - intros Hc Hr Hn Hon.
    destruct (poll_until_limit reads t w Hrun Hc Hr Hn Hon)
      as (t' & w' & Hp & Hs & Hc').
    exists t', w'. repeat split; try assumption.
    intros ms us w2. apply elapsed_paused. assumption.
  - intros Hr. apply poll_unlimited; assumption.
Qed.

(** C9: [reset()] sets [pMillis] and [_pMicros] to the current reads,
    clears [_count] and [_lastElapsedTime], and leaves the interval, the
    running flag and every other member as they were. *)
Theorem reset_frame (ms us : Z) t :
  let t' := reset ms us t in
  pMillis t' = ms /\ _pMicros t' = us /\
  _count t' = 0 /\ _lastElapsedTime t' = 0 /\
  _timelapse t' = _timelapse t /\ _state t' = _state t /\
  _startTime t' = _startTime t /\ _repeatCount t' = _repeatCount t /\
  _elapsedTimes t' = _elapsedTimes t /\
  _elapsedIndex t' = _elapsedIndex t /\
  _callback t' = _callback t /\
  _elapsedCallback t' = _elapsedCallback t /\
  _useElapsedFirst t' = _useElapsedFirst t.
Proof. destruct t. unfold reset. assign. repeat split; reflexivity. Qed.

(** ** [interruptHandler()] *)

(** C5, as the code has it: with no instance, or with an instance whose
    zero-argument callback is not set, the handler changes nothing and
    calls nothing.  With the zero-argument callback set it increments the
    count, stores as last duration [now - pMillis] when the timer runs
    and 0 when it is paused, moves [pMillis] and [_pMicros] to the
    current reads, calls the callbacks in the order [_useElapsedFirst]
    selects, writes the duration into the ring, and leaves the timer
    stopped when the repeat limit is reached and running otherwise. *)
Theorem interrupt_dispatch (ms ms' us : Z) t w :
  interruptHandler ms ms' us None w = (None, w) /\
  (_callback t = None ->
   interruptHandler ms ms' us (Some t) w = (Some t, w)) /\
  (_callback t <> None -> 0 <= _elapsedIndex t < 10 ->
   let d := if _state t then wrap32 (ms - pMillis t) else 0 in
   exists t',
     interruptHandler ms ms' us (Some t) w =
       (Some t',
        if _useElapsedFirst t
        then call (_callback t) (call_elapsed (_elapsedCallback t) d w)
        else call_elapsed (_elapsedCallback t) d (call (_callback t) w)) /\
     _count t' = wrap32 (_count t + 1) /\
     _lastElapsedTime t' = d /\
     pMillis t' = ms' /\
     _pMicros t' = us /\
     _elapsedTimes t' =
       <[Z.to_nat (_elapsedIndex t) := d]> (_elapsedTimes t) /\
     _elapsedIndex t' = (_elapsedIndex t + 1) mod 10 /\
     _state t' =
       negb ((0 <? _repeatCount t) && (_repeatCount t <=? _count t')) /\
     _timelapse t' = _timelapse t /\
     _startTime t' = _startTime t /\
     _repeatCount t' = _repeatCount t /\
     _callback t' = _callback t /\
     _elapsedCallback t' = _elapsedCallback t /\
     _useElapsedFirst t' = _useElapsedFirst t).
Proof.
  split; [reflexivity|]. split.
  - intros Hcb. unfold interruptHandler. rewrite Hcb. reflexivity.
  - destruct t as [lapse pm cnt st start rep pu last ecb first ring idx cb].
    fields. intros Hcb Hi. unfold interruptHandler. fields.
    destruct cb as [cb|]; [clear Hcb|congruence].
    assign. rewrite next_index by assumption.
    destruct ((0 <? rep) && (rep <=? wrap32 (cnt + 1))) eqn:El, st, first;
      eexists; (split; [reflexivity|]); fields; rewrite El;
      repeat split; reflexivity.
Qed.

(** ** [countdown()] *)

(** C6, as the code has it: on a timer that is not running the call
    arms it ([_timelapse = duration], [pMillis = now]) and then compares;
    on a running timer the argument [duration] is not used and the
    comparison is against the stored interval.  When the interval has
    passed the call stops the timer, calls the callback once if there is
    one and returns 0; otherwise it returns the ticks that remain and the
    timer runs.  Armed and read at the same tick, a positive [duration]
    is returned in full. *)
Theorem countdown_arms_when_paused (ms ms' duration : Z) cb t w :
  u32 duration -> u32 (_timelapse t) ->
  (_state t = false ->
   let e := wrap32 (ms' - ms) in
   let armed := set_state true (set_timelapse duration (set_pMillis ms t)) in
   (duration <= e ->
    countdown ms ms' duration cb t w = (0, stop armed, call cb w)) /\
   (e < duration ->
    countdown ms ms' duration cb t w = (duration - e, armed, w)) /\
   (ms' = ms -> 0 < duration ->
    countdown ms ms' duration cb t w = (duration, armed, w))) /\
  (_state t = true ->
   let e := wrap32 (ms' - pMillis t) in
   (_timelapse t <= e ->
    countdown ms ms' duration cb t w = (0, stop t, call cb w)) /\
   (e < _timelapse t ->
    countdown ms ms' duration cb t w = (_timelapse t - e, t, w))).
Proof.
  intros Hd Hl. split.
  - intros Hoff e armed.
    assert (He : 0 <= e < 2 ^ 32) by apply wrap32_range.
    assert (Hgo : forall P : Z * timecontrol W * W -> Prop,
      P (if duration <=? e then (0, stop armed, call cb w)
         else (wrap32 (duration - e), armed, w)) ->
      P (countdown ms ms' duration cb t w)).
    { intros P HP. unfold countdown. rewrite Hoff. exact HP. }
    split; [|split].
    + intros Hle. apply Hgo.
      destruct (Z.leb_spec duration e); [reflexivity|lia].
    + intros Hlt. apply Hgo.
      destruct (Z.leb_spec duration e); [lia|].
      rewrite wrap32_small by (unfold u32 in *; lia). reflexivity.
    + intros -> Hpos. apply Hgo. subst e.
      rewrite Z.sub_diag. change (wrap32 0) with 0.
      destruct (Z.leb_spec duration 0); [lia|].
      rewrite Z.sub_0_r, wrap32_small by assumption. reflexivity.
  - intros Hrun e.
    assert (He : 0 <= e < 2 ^ 32) by apply wrap32_range.
    split.
    + intros Hle. unfold countdown. rewrite Hrun. cbn [negb]. fold e.
      destruct (Z.leb_spec (_timelapse t) e); [reflexivity|lia].
    + intros Hlt. unfold countdown. rewrite Hrun. cbn [negb]. fold e.
      destruct (Z.leb_spec (_timelapse t) e); [lia|].
      rewrite wrap32_small by (unfold u32 in *; lia). reflexivity.
Qed.

(** ** [remainingTime()] *)

(** C7, as the code has it: [remainingTime()] returns 0 on a paused timer
    and when its inner [elapsed()] fires; otherwise it returns the
    interval minus [now - pMillis], or 0 when that is past the interval.
    Asked again at the tick of a crossing, it returns the full interval
    when the crossing left the timer running, and 0 when the crossing
    reached the repeat limit and stopped the timer. *)
Theorem remainingTime_after_crossing (ms us ms' : Z) t w :
  u32 (_timelapse t) ->
  (_state t = false -> remainingTime ms us ms' t w = (0, t, w)) /\
  (_state t = true -> _timelapse t <= wrap32 (ms - pMillis t) ->
   exists t' w',
     elapsed ms us t w = (true, t', w') /\
     remainingTime ms us ms' t w = (0, t', w') /\
     (_state t' = true ->
      forall us2 w2, (remainingTime ms us2 ms t' w2).1.1 = _timelapse t) /\
     (_state t' = false ->
      forall ms2 us2 ms3 w2, remainingTime ms2 us2 ms3 t' w2 = (0, t', w2)))
  /\
  (_state t = true -> wrap32 (ms - pMillis t) < _timelapse t ->
   let e := wrap32 (ms' - pMillis t) in
   remainingTime ms us ms' t w =
     (if e <? _timelapse t then _timelapse t - e else 0, t, w)).
Proof.
  intros Hl. split; [|split].
  - intros Hoff. unfold remainingTime. rewrite Hoff. reflexivity.
  - intros Hrun Hdue.
    destruct (elapsed_fires ms us t w Hrun Hdue)
      as (t' & w' & He & _ & _ & Hl' & Hp' & _).
    exists t', w'. split; [exact He|]. split; [|split].
    + unfold remainingTime. rewrite Hrun, He. reflexivity.
    + intros Hrun' us2 w2. unfold remainingTime. rewrite Hrun'. cbn [negb].
      unfold elapsed. rewrite Hrun', Hp', Hl', Z.sub_diag. cbn [negb].
      change (wrap32 0) with 0.
      destruct (Z.leb_spec (_timelapse t) 0) as [Hz|Hpos].
      * cbn [fst]. unfold u32 in Hl. lia.
      * rewrite Hp', Hl', Z.sub_diag. change (wrap32 0) with 0.
        destruct (Z.ltb_spec 0 (_timelapse t)); [|lia].
        cbn [fst]. rewrite Z.sub_0_r. apply wrap32_small. assumption.
    + intros Hoff ms2 us2 ms3 w2. unfold remainingTime. rewrite Hoff.
      reflexivity.
  - intros Hrun Hlt e. unfold remainingTime. rewrite Hrun. cbn [negb].
    rewrite elapsed_early by assumption. fold e.
    assert (He : 0 <= e < 2 ^ 32) by apply wrap32_range.
    destruct (Z.ltb_spec e (_timelapse t)); [|reflexivity].
    rewrite wrap32_small by (unfold u32 in *; lia). reflexivity.
Qed.

(** ** [elapsedSeconds()] *)

Lemma elapsedSeconds_fires (ms ms' us : Z) t w :
  _state t = true ->
  _timelapse t / 1000 <= wrap32 (ms / 1000 - pMillis t / 1000) ->
  exists t' w',
    elapsedSeconds ms ms' us t w = (true, t', w') /\
    _lastElapsedTime t' =
      wrap32 (wrap32 (ms / 1000 - pMillis t / 1000) * 1000) /\
    pMillis t' = ms'.
Proof.
  destruct t as [lapse pm cnt st start rep pu last ecb first ring idx cb].
  fields. intros -> Hdue. unfold elapsedSeconds. assign.
  destruct (Z.leb_spec (lapse / 1000) (wrap32 (ms / 1000 - pm / 1000)));
    [|lia].
  do 2 eexists. split; [reflexivity|].
  destruct ((0 <? rep) && (rep <=? wrap32 (cnt + 1)));
    fields; split; reflexivity.
Qed.

(** C10, as the code has it: on a running timer whose interval is below
    1000 ms, [elapsedSeconds()] returns true at every call, whatever the
    clock reads.  When the clock has not gone back behind [pMillis], the
    duration it stores is the difference of the two whole seconds times
    1000, a multiple of 1000.  At a read where less than the interval has
    passed, [elapsed()] on the same timer returns false. *)
Theorem elapsedSeconds_subsecond (ms ms' us : Z) t w :
  _state t = true -> 0 <= _timelapse t < 1000 ->
  exists t' w',
    elapsedSeconds ms ms' us t w = (true, t', w') /\
    (0 <= pMillis t <= ms -> ms < 2 ^ 32 ->
     _lastElapsedTime t' = (ms / 1000 - pMillis t / 1000) * 1000 /\
     _lastElapsedTime t' mod 1000 = 0) /\
    (wrap32 (ms - pMillis t) < _timelapse t ->
     elapsed ms us t w = (false, t, w)).
Proof.
  intros Hrun Hl.
  pose proof (wrap32_range (ms / 1000 - pMillis t / 1000)) as Hr.
  destruct (elapsedSeconds_fires ms ms' us t w Hrun)
    as (t' & w' & He & Hd & _).
  { rewrite Z.div_small by assumption. apply Hr. }
  exists t', w'. split; [exact He|]. split.
  - intros Hp Hms. rewrite Hd.
    assert (Hq : 0 <= pMillis t / 1000 <= ms / 1000).
    { split; [apply Z.div_pos; lia|apply Z.div_le_mono; lia]. }
    assert (Hq' : ms / 1000 <= 4294967).
    { change 4294967 with (4294967295 / 1000).
      apply Z.div_le_mono; lia. }
    rewrite (wrap32_small (ms / 1000 - pMillis t / 1000))
      by (unfold u32; lia).
    rewrite wrap32_small by (unfold u32; lia).
    split; [reflexivity|]. apply Z.mod_mul. lia.
  - intros Hlt. apply elapsed_early; assumption.
Qed.

(** ** [adjustTimelapse()] *)

(** X21: where the interval and the sum both fit the signed 32 bits the
    method computes in, [adjustTimelapse()] sets the interval to the sum,
    or to 0 when the sum is not positive. *)
Lemma adjustTimelapse_in_range (adjustment : Z) t :
  0 <= _timelapse t < 2 ^ 31 ->
  - 2 ^ 31 <= _timelapse t + adjustment < 2 ^ 31 ->
  adjustTimelapse adjustment t =
    Some (set_timelapse (Z.max 0 (_timelapse t + adjustment)) t).
Proof.
  intros Hl Hs. unfold adjustTimelapse, to_int32, add_int32.
  rewrite (wrap32_small (_timelapse t)) by (unfold u32; lia).
  destruct (Z.ltb_spec (_timelapse t) (2 ^ 31)); [|lia].
  destruct (Z.leb_spec (- 2 ^ 31) (_timelapse t + adjustment)); [|lia].
  destruct (Z.ltb_spec (_timelapse t + adjustment) (2 ^ 31)); [|lia].
  cbn [andb]. f_equal. f_equal.
  destruct (Z.ltb_spec 0 (_timelapse t + adjustment)).
  - rewrite wrap32_small by (unfold u32; lia). lia.
  - lia.
Qed.

(** X22: whenever [adjustTimelapse()] is defined (its signed sum does
    not overflow), the interval it leaves is below 2^31: never a negative
    sum read as a large unsigned value. *)
Lemma adjustTimelapse_bound (adjustment : Z) t t' :
  adjustTimelapse adjustment t = Some t' -> 0 <= _timelapse t' < 2 ^ 31.
Proof.
  unfold adjustTimelapse, add_int32.
  destruct (Z.leb_spec (- 2 ^ 31) (to_int32 (_timelapse t) + adjustment));
    [|discriminate].
  destruct (Z.ltb_spec (to_int32 (_timelapse t) + adjustment) (2 ^ 31));
    [|discriminate].
  cbn [andb]. intros [= <-]. cbn [set_timelapse _timelapse].
  destruct (Z.ltb_spec 0 (to_int32 (_timelapse t) + adjustment)); [|lia].
  rewrite wrap32_small by (unfold u32; lia). lia.
Qed.

(** ** [getAverageElapsedTime()] *)

Lemma getAverageElapsedTime_no_event (samples : Z) t :
  _count t = 0 -> getAverageElapsedTime samples t = Some 0.
Proof. intros H. unfold getAverageElapsedTime. rewrite H. reflexivity. Qed.

(** C2 fails where [samples] is 0 and an event was recorded: the number
    of entries to read is [min(0, _count) = 0], the loop does not run,
    and the method divides the sum by 0. *)
Theorem getAverageElapsedTime_zero_samples t :
  0 < _count t -> getAverageElapsedTime 0 t = None.
Proof.
  intros Hc. unfold getAverageElapsedTime. cbn [Z.ltb Z.compare].
  destruct (Z.eqb_spec (_count t) 0); [lia|].
  rewrite Z.min_l by lia. reflexivity.
Qed.

Lemma average_loop_sum (n : nat) : forall (i s : Z) t,
  0 <= _elapsedIndex t < 10 -> 0 <= i -> i + Z.of_nat n <= 10 -> u32 s ->
  average_loop n i t s =
    wrap32 (s + foldr Z.add 0
                  (map (fun j => sample_at ((_elapsedIndex t - 1 - j) mod 10) t)
                       (seqZ i (Z.of_nat n)))).
Proof.
  induction n as [|n IH]; intros i s t Hx Hi Hn Hs.
  - cbn. rewrite Z.add_0_r, wrap32_small by assumption. reflexivity.
  - cbn [average_loop].
    rewrite seqZ_cons by lia. cbn [map foldr].
    rewrite Z.rem_mod_nonneg by lia.
    replace (_elapsedIndex t - 1 - i + 10)
      with (_elapsedIndex t - 1 - i + 1 * 10) by lia.
    rewrite Z_mod_plus_full.
    assert (Hm := Z.mod_pos_bound (_elapsedIndex t - 1 - i) 10).
    rewrite (wrap8_small ((_elapsedIndex t - 1 - i) mod 10))
      by (unfold u8; lia).
    rewrite (wrap8_small (i + 1)) by (unfold u8; lia).
    rewrite IH; try lia; [|apply wrap32_range].
    replace (Z.pred (Z.of_nat (S n))) with (Z.of_nat n) by lia.
    replace (Z.succ i) with (i + 1) by lia.
    unfold wrap32. rewrite Zplus_mod_idemp_l. f_equal. lia.
Qed.

(** X23: with at least one sample asked for and at least one event
    recorded, [getAverageElapsedTime()] returns the sum (32 bits,
    unsigned) of the [min(samples, _count, 10)] entries behind the write
    index, divided by their number. *)
Lemma getAverageElapsedTime_mean (samples : Z) t :
  0 <= _elapsedIndex t < 10 -> 0 < samples < 2 ^ 8 -> 0 < _count t ->
  let k := Z.min (Z.min samples (_count t)) 10 in
  getAverageElapsedTime samples t =
    Some (wrap32 (foldr Z.add 0 (recent_samples (Z.to_nat k) t)) / k).
Proof.
  intros Hx Hs Hc k. unfold getAverageElapsedTime.
  destruct (Z.eqb_spec (_count t) 0); [lia|].
  assert (Hk : Z.min (if 10 <? samples then 10 else samples) (_count t) = k).
  { subst k. destruct (Z.ltb_spec 10 samples); lia. }
  rewrite Hk. assert (Hk' : 0 < k <= 10) by (subst k; lia).
  rewrite wrap8_small by (unfold u8; lia).
  rewrite average_loop_sum; try assumption; try lia;
    [|unfold u32; lia].
  unfold udiv. destruct (Z.eqb_spec k 0); [lia|].
  unfold recent_samples. rewrite Z.add_0_l. reflexivity.
Qed.

End TimerFacts.

(** ** [secToTime()] below the value [SECONDS_PER_DAY] holds *)

Module FormatFacts.

Import Format.

Lemma length_append (a b : string) :
  String.length (a ++ b)%string = (String.length a + String.length b)%nat.
Proof. induction a as [|c a IH]; cbn; [reflexivity|]. rewrite IH. lia. Qed.

Lemma substring_whole (s : string) : forall n : nat,
  (String.length s <= n)%nat -> String.substring 0 n s = s.
Proof.
  induction s as [|c s IH]; intros [|n] Hn; cbn in *;
    try reflexivity; try lia.
  f_equal. apply IH. lia.
Qed.

Lemma fmt_02d_length (v : Z) :
  0 <= v < 100 -> String.length (fmt_02d v) = 2%nat.
Proof.
  intros Hv. rewrite <- (Z2Nat.id v) by lia.
  assert (Hn : (Z.to_nat v < 100)%nat) by lia.
  revert Hn. generalize (Z.to_nat v). clear Hv v. intros n Hn.
  do 100 (destruct n as [|n]; [vm_compute; reflexivity|]). lia.
Qed.

Lemma as_int_small (int_bits v : Z) :
  int_bits = 16 \/ int_bits = 32 -> 0 <= v < 2 ^ 8 -> as_int int_bits v = v.
Proof.
  intros [-> | ->] Hv; unfold as_int; rewrite Z.mod_small by lia.
  - destruct (Z.ltb_spec v (2 ^ (16 - 1))); lia.
  - destruct (Z.ltb_spec v (2 ^ (32 - 1))); lia.
Qed.

(** X24: below 20864 seconds [secToTime()] writes [HH:MM:SS] as
    specified, whichever the width of [int]. *)
Lemma secToTime_short (int_bits sec : Z) :
  int_bits = 16 \/ int_bits = 32 -> 0 <= sec < 20864 ->
  secToTime int_bits sec = dhms sec.
Proof.
  intros Hib Hs. unfold secToTime, dhms, hms.
  change SECONDS_PER_DAY with 20864.
  change SECONDS_PER_HOUR with 3600.
  change SECONDS_PER_MINUTE with 60.
  rewrite (Z.div_small sec 20864), (Z.div_small sec 86400),
    (Z.mod_small sec 20864), (Z.mod_small sec 86400) by lia.
  change (wrap16 0) with 0. cbn [Z.ltb Z.compare].
  assert (Hh : 0 <= sec / 3600 < 6).
  { split; [apply Z.div_pos; lia|apply Z.div_lt_upper_bound; lia]. }
  assert (Hm : 0 <= sec mod 3600 / 60 < 60).
  { pose proof (Z.mod_pos_bound sec 3600).
    split; [apply Z.div_pos; lia|apply Z.div_lt_upper_bound; lia]. }
  assert (Hc : 0 <= sec mod 60 < 60) by (apply Z.mod_pos_bound; lia).
  rewrite !wrap8_small by (unfold u8; lia).
  rewrite !as_int_small by (assumption || lia).
  unfold snprintf. apply substring_whole.
  rewrite !length_append, !fmt_02d_length by lia. cbn. lia.
Qed.

End FormatFacts.

(** * The sketch, run *)

Module Runs.

Import Format Sketch.

(** C1 fails on the code at one day and more: [SECONDS_PER_DAY] holds
    20864, what is left of 86400 in 16 bits, so [secToTime(90061)] writes
    four days where the layout of the documentation has one.  Below
    20864 seconds the constant plays no part and [secToTime(3661)] is as
    documented. *)
Theorem secToTime_day_constant :
  SECONDS_PER_DAY = 20864 /\
  secToTime 32 90061 = "4:01:01:01"%string /\
  secToTime 16 90061 = "4:01:01:01"%string /\
  dhms 90061 = "1:01:01:01"%string /\
  secToTime 32 3661 = "01:01:01"%string.
Proof. repeat split; vm_compute; reflexivity. Qed.

Lemma getAverageElapsedTime_zero_samples_run :
  0 < _count after_one_event /\
  getAverageElapsedTime 0 after_one_event = None.
Proof.
  assert (H : 0 < _count after_one_event) by (vm_compute; reflexivity).
  split; [exact H|].
  exact (getAverageElapsedTime_zero_samples after_one_event H).
Defined.

Lemma elapsed_check_run :
  0 <= _elapsedIndex both_callbacks < 10 /\
  exists t',
    elapsed 1000 1000000 both_callbacks [] =
      (true, t', [WithTime 1000; Simple]) /\
    _lastElapsedTime t' = 1000 /\ pMillis t' = 1000 /\
    _elapsedTimes t' = [1000; 0; 0; 0; 0; 0; 0; 0; 0; 0] /\
    _elapsedIndex t' = 1 /\ _count t' = 1 /\ _state t' = true.
Proof.
  assert (Hi : 0 <= _elapsedIndex both_callbacks < 10)
    by (unfold u32; simpl; lia).
  split; [exact Hi|].
  destruct (elapsed_check 1000 1000000 both_callbacks [] Hi) as (_ & _ & H).
  destruct H as (t' & He & H1 & H2 & _ & H4 & H5 & H6 & H7 & _);
    [reflexivity|vm_compute; discriminate|].
  exists t'. split; [exact He|].
  rewrite H7, H6, H5, H4, H2, H1. repeat split; reflexivity.
Defined.

Lemma repeat_limit_pauses_run :
  (exists t' w',
     poll [(1000, 0); (2000, 0); (3000, 0)] three_shots [] =
       ([true; true; true], t', w') /\
     _state t' = false /\
     elapsed 4000 0 t' w' = (false, t', w')) /\
  _state (poll [(1000, 0); (2000, 0); (3000, 0); (4000, 0)]
            (timecontrol_lapse 0 0 1000) ([] : world)).1.2 = true.
Proof.
  split.
  - destruct (repeat_limit_pauses [(1000, 0); (2000, 0); (3000, 0)]
                three_shots [] eq_refl) as (_ & H & _).
    destruct H as (t' & w' & Hp & Hs & _ & Hn).
    + simpl. lia.
    + simpl. lia.
    + reflexivity.
    + vm_compute. repeat split; discriminate.
    + exists t', w'. split; [exact Hp|]. split; [exact Hs|]. apply Hn.
  - destruct (repeat_limit_pauses
                [(1000, 0); (2000, 0); (3000, 0); (4000, 0)]
                (timecontrol_lapse 0 0 1000) ([] : world) eq_refl)
      as (_ & _ & H).
    apply H. reflexivity.
Defined.

(** C5 fails where only the callback with the duration is set: the
    handler leaves the count, the ticks and the ring as they were and
    calls nothing, where [elapsed()] on the same timer calls it. *)
Lemma interrupt_only_duration_callback :
  _callback only_elapsed_callback = None /\
  _elapsedCallback only_elapsed_callback = Some showTime /\
  interruptHandler 1000 1000 1000000 (Some only_elapsed_callback) [] =
    (Some only_elapsed_callback, []) /\
  elapsed 1000 1000000 only_elapsed_callback [] <>
    (true, only_elapsed_callback, []) /\
  (elapsed 1000 1000000 only_elapsed_callback []).2 = [WithTime 1000] /\
  _count (elapsed 1000 1000000 only_elapsed_callback []).1.2 = 1.
Proof. repeat split. discriminate. Qed.

Lemma interrupt_dispatch_run :
  exists t',
    interruptHandler 1000 1001 1000000 (Some both_callbacks) [] =
      (Some t', [WithTime 1000; Simple]) /\
    _count t' = 1 /\ _lastElapsedTime t' = 1000 /\ pMillis t' = 1001 /\
    _state t' = true.
Proof.
  destruct (interrupt_dispatch 1000 1001 1000000 both_callbacks [])
    as (_ & _ & H).
  destruct H as (t' & He & H1 & H2 & H3 & _ & _ & _ & H7 & _).
  - discriminate.
  - simpl. lia.
  - exists t'. split; [exact He|].
    rewrite H7, H1, H2, H3. repeat split; reflexivity.
Defined.

(** C6 fails on the first call made on a timer built by [timecontrol()]:
    the timer is running with interval 0, so the call does not arm it;
    it finds the interval passed, stops the timer, calls the callback and
    returns 0.  The call after that one arms the timer and returns
    5000. *)
Lemma countdown_first_call_on_default_timer :
  _state countdownTimer = true /\
  countdown 0 0 5000 (Some finished) countdownTimer [] =
    (0, stop countdownTimer, [Finished]) /\
  (countdown 0 0 5000 (Some finished) countdownTimer []).1.1 <> 5000 /\
  _timelapse (countdown 0 0 5000 (Some finished) countdownTimer []).1.2
    <> 5000 /\
  (countdown 1 1 5000 (Some finished) (stop countdownTimer) [Finished]).1.1
    = 5000.
Proof. repeat split; discriminate. Qed.

Lemma countdown_arms_when_paused_run :
  exists armed,
    countdown 7 7 5000 (Some finished) paused_timer [] = (5000, armed, []) /\
    _state armed = true /\ _timelapse armed = 5000 /\ pMillis armed = 7 /\
    countdown 0 5007 5000 (Some finished) armed [] =
      (0, stop armed, [Finished]) /\
    countdown 0 4007 5000 (Some finished) armed [] = (1000, armed, []).
Proof.
  assert (Hd : u32 5000) by (unfold u32; simpl; lia).
  assert (Hl : u32 (_timelapse paused_timer))
    by (unfold u32; simpl; lia).
  destruct (countdown_arms_when_paused 7 7 5000 (Some finished)
              paused_timer [] Hd Hl) as [H _].
  destruct (H eq_refl) as (_ & _ & Harm). clear H.
  specialize (Harm eq_refl ltac:(reflexivity)).
  eexists. split; [exact Harm|].
  do 3 (split; [reflexivity|]). split.
  - match goal with |- countdown _ _ _ _ ?a _ = _ =>
      destruct (countdown_arms_when_paused 0 5007 5000 (Some finished)
                  a [] Hd Hd) as [_ H] end.
    destruct (H eq_refl) as [Hdone _]. apply Hdone.
    vm_compute. discriminate.
  - match goal with |- countdown _ _ _ _ ?a _ = _ =>
      destruct (countdown_arms_when_paused 0 4007 5000 (Some finished)
                  a [] Hd Hd) as [_ H] end.
    destruct (H eq_refl) as [_ Hleft]. apply Hleft.
    vm_compute. reflexivity.
Defined.

(** C7 fails where the crossing reaches the repeat limit: the timer is
    stopped by it, and [remainingTime()] asked at the same tick returns
    0, not the interval of 100. *)
Lemma remainingTime_after_limit_crossing :
  exists t',
    _state one_shot = true /\
    elapsed 100 100000 one_shot [] = (true, t', []) /\
    _timelapse t' = 100 /\
    remainingTime 100 100000 100 t' [] = (0, t', []) /\
    (remainingTime 100 100000 100 t' []).1.1 <> _timelapse t'.
Proof. eexists. repeat split. discriminate. Qed.

Lemma remainingTime_after_crossing_run :
  (exists t' w',
     elapsed 1000 1000000 both_callbacks [] = (true, t', w') /\
     remainingTime 1000 1000000 1000 both_callbacks [] = (0, t', w') /\
     (remainingTime 1000 1000000 1000 t' w').1.1 = 1000) /\
  remainingTime 400 400000 400 both_callbacks [] = (600, both_callbacks, [])
  /\
  remainingTime 400 400000 400 paused_timer [] = (0, paused_timer, []).
Proof.
  assert (Hl : u32 (_timelapse both_callbacks))
    by (unfold u32; simpl; lia).
  assert (Hl' : u32 (_timelapse paused_timer))
    by (unfold u32; simpl; lia).
  split; [|split].
  - destruct (remainingTime_after_crossing 1000 1000000 1000
                both_callbacks [] Hl) as (_ & H & _).
    destruct H as (t' & w' & He & Hr & Hfull & _);
      [reflexivity|vm_compute; discriminate|].
    exists t', w'. split; [exact He|]. split; [exact Hr|].
    apply Hfull.
    assert (Ht : (elapsed 1000 1000000 both_callbacks []).1.2 = t')
      by (rewrite He; reflexivity).
    rewrite <- Ht. reflexivity.
  - destruct (remainingTime_after_crossing 400 400000 400
                both_callbacks [] Hl) as (_ & _ & H).
    apply H; [reflexivity|vm_compute; reflexivity].
  - destruct (remainingTime_after_crossing 400 400000 400
                paused_timer [] Hl') as (H & _).
    apply H. reflexivity.
Defined.

(** C8 fails on the code for an interval of 2^31 ms and more: the method
    reads the interval as a signed 32-bit number, finds it negative, and
    sets the interval to 0 even for an adjustment of 0 or of +1000. *)
Theorem adjustTimelapse_long_interval :
  _timelapse long_interval = 3000000000 /\
  option_map _timelapse (adjustTimelapse 0 long_interval) = Some 0 /\
  option_map _timelapse (adjustTimelapse 1000 long_interval) = Some 0 /\
  option_map _timelapse
    (adjustTimelapse (-1000) (timecontrol_lapse 0 0 500 : timecontrol world))
    = Some 0.
Proof. repeat split. Qed.

(** C10 fails where the millisecond counter has wrapped since the last
    event: the difference of the two whole seconds wraps, and the
    duration stored is 296, no multiple of 1000. *)
Lemma elapsedSeconds_across_wrap :
  _state before_wrap = true /\ _timelapse before_wrap = 500 /\
  exists t' w',
    elapsedSeconds 100 100 100000 before_wrap [] = (true, t', w') /\
    _lastElapsedTime t' = 296 /\
    _lastElapsedTime t' mod 1000 <> 0.
Proof.
  split; [reflexivity|]. split; [reflexivity|].
  do 2 eexists. split; [vm_compute; reflexivity|].
  split; [reflexivity|]. vm_compute. discriminate.
Qed.

Lemma elapsedSeconds_subsecond_run :
  exists t' w',
    elapsedSeconds 1100 1100 1100000 (timecontrol_lapse 900 900000 500) []
      = (true, t', (w' : world)) /\
    _lastElapsedTime t' = 1000 /\
    elapsed 1100 1100000 (timecontrol_lapse 900 900000 500) ([] : world)
      = (false, timecontrol_lapse 900 900000 500, []).
Proof.
  destruct (elapsedSeconds_subsecond 1100 1100 1100000
              (timecontrol_lapse 900 900000 500) ([] : world) eq_refl)
    as (t' & w' & He & Hm & Hc).
  - simpl. lia.
  - exists t', w'. split; [exact He|]. split.
    + destruct Hm as [Hd _].
      * simpl. lia.
      * vm_compute. reflexivity.
      * exact Hd.
    + apply Hc. vm_compute. reflexivity.
Defined.

End Runs.

(** * Further properties of the class *)

(** Takes the branches of a method one by one. *)
Ltac branches :=
  repeat match goal with
         | |- context [if ?b then _ else _] => destruct b eqn:?
         end.

(** Closes the parts of the invariant of an object written out. *)
Ltac invariant :=
  constructor; fields;
  try assumption; try apply wrap32_range; try (unfold u32; lia);
  try (apply Forall_insert; [assumption | apply wrap32_range]);
  try (apply Forall_insert; [assumption | unfold u32; lia]);
  try (rewrite length_insert; assumption);
  try (rewrite next_index by assumption;
       match goal with
       | |- 0 <= (?i + 1) mod 10 < 10 => apply Z.mod_pos_bound; lia
       end).

Section TimerLaws.

Context {W : Type}.
Implicit Types (t : timecontrol W) (w : W).

(** ** The invariant on every path *)

Lemma div_1000_range (z : Z) : u32 z -> u32 (z / 1000).
Proof.
  unfold u32. intros Hz. split.
  - apply Z.div_pos; lia.
  - apply Z.div_lt_upper_bound; lia.
Qed.

(** X1: every method that records an event or moves the reference ticks
    keeps the object within its types: the ring keeps its ten slots of
    32 bits and the write index stays inside it, the counters and ticks
    stay within 32 bits.  This holds for [elapsed()],
    [elapsedSeconds()], [elapsedMicros()], the interrupt handler,
    [countdown()], [reset()], [fullReset()] and
    [pauseAndResumeLater()]. *)
Theorem methods_keep_invariant (ms ms' us duration out : Z)
    (cb : option (W -> W)) t w :
  wf t -> u32 ms -> u32 ms' -> u32 us -> u32 duration ->
  wf (elapsed ms us t w).1.2 /\
  wf (elapsedSeconds ms ms' us t w).1.2 /\
  wf (elapsedMicros us ms t w).1.2 /\
  (forall t', (interruptHandler ms ms' us (Some t) w).1 = Some t' -> wf t')
  /\
  wf (countdown ms ms' duration cb t w).1.2 /\
  wf (reset ms us t) /\
  wf (fullReset ms us t) /\
  wf (pauseAndResumeLater ms us out t).2.
Proof.
  intros Hwf Hms Hms' Hus Hd.
  assert (Hq : forall z, u32 (wrap32 z / 1000))
    by (intros z; apply div_1000_range, wrap32_range).
  destruct t as [lapse pm cnt st start rep pu last ecb first ring idx cb0].
  destruct Hwf as [H1 H2 H3 H4 H5 H6 H7 H8 H9 H10]. fields.
  repeat apply conj.
  - unfold elapsed. assign. branches; assign; invariant.
  - unfold elapsedSeconds. assign. branches; assign; invariant.
  - unfold elapsedMicros. assign. branches; assign; invariant;
      solve [apply Hq | apply Forall_insert; [assumption | apply Hq]].
  - intros t'. unfold interruptHandler. fields.
    destruct cb0 as [f|]; assign.
    + branches; assign; intros [= <-]; invariant.
    + intros [= <-]. invariant.
  - unfold countdown. assign. branches; assign; invariant.
  - unfold reset. assign. invariant.
  - unfold fullReset. assign. invariant.
  - unfold pauseAndResumeLater. assign. branches; assign; invariant.
Qed.

(** X25: the three constructors build an object within the invariant
    (their arguments and the clock reads being of 32 bits), with no event
    counted; on such an object [getAverageElapsedTime()] returns 0
    whatever the number of samples asked for, 0 included. *)
Theorem constructors_establish_invariant (ms us timelapse previous : Z)
    (state : bool) (samples : Z) :
  u32 ms -> u32 us -> u32 timelapse -> u32 previous ->
  wf (timecontrol_default (W := W) ms us) /\
  wf (timecontrol_lapse (W := W) ms us timelapse) /\
  wf (timecontrol_full (W := W) ms us timelapse state previous) /\
  getAverageElapsedTime samples (timecontrol_default (W := W) ms us)
    = Some 0 /\
  getAverageElapsedTime samples (timecontrol_lapse (W := W) ms us timelapse)
    = Some 0 /\
  getAverageElapsedTime samples
    (timecontrol_full (W := W) ms us timelapse state previous) = Some 0.
Proof.
  intros Hms Hus Hl Hp.
  assert (Hring : Forall u32 zeroed_samples).
  { unfold zeroed_samples. apply Forall_replicate. unfold u32. lia. }
  repeat apply conj; try reflexivity;
    (constructor; cbn; try assumption; try reflexivity;
     unfold u32; lia).
Qed.

(** ** Polling [elapsed()] *)

Lemma elapsed_cases (ms us : Z) t w :
  elapsed ms us t w = (false, t, w) \/
  exists t' w',
    elapsed ms us t w = (true, t', w') /\
    _state t = true /\
    _timelapse t <= wrap32 (ms - pMillis t) /\
    _count t' = wrap32 (_count t + 1) /\
    _repeatCount t' = _repeatCount t /\
    _timelapse t' = _timelapse t /\
    pMillis t' = ms /\
    _state t' =
      negb ((0 <? _repeatCount t) && (_repeatCount t <=? _count t')).
Proof.
  destruct (_state t) eqn:Hst.
  - destruct (Z.lt_ge_cases (wrap32 (ms - pMillis t)) (_timelapse t))
      as [Hlt|Hge].
    + left. apply elapsed_early; assumption.
    + right. destruct (elapsed_fires ms us t w Hst Hge)
        as (t' & w' & He & Hrest).
      exists t', w'. split; [exact He|]. split; [reflexivity|].
      split; [exact Hge|]. exact Hrest.
  - left. apply elapsed_paused. assumption.
Qed.

Lemma wrap32_add_l (a b : Z) : wrap32 (wrap32 a + b) = wrap32 (a + b).
Proof. unfold wrap32. apply Zplus_mod_idemp_l. Qed.

Lemma wrap32_diff (p delta : Z) :
  0 <= delta < 2 ^ 32 -> wrap32 (wrap32 (p + delta) - p) = delta.
Proof.
  intros Hd. unfold wrap32. rewrite Zminus_mod_idemp_l.
  replace (p + delta - p) with delta by lia.
  apply Z.mod_small. exact Hd.
Qed.

Lemma count_occ_all_false (n : nat) :
  count_occ bool_dec (replicate n false) true = 0%nat.
Proof. induction n as [|n IH]; [reflexivity|]. cbn. exact IH. Qed.

(** X2: over any sequence of calls of [elapsed()], the event count grows
    by the number of calls that returned true (modulo 2^32): what
    [elapsedCount()] reports is the number of true answers since the
    count was last cleared. *)
Theorem poll_counts_events (reads : list (Z * Z)) : forall t w,
  u32 (_count t) ->
  _count (poll reads t w).1.2 =
    wrap32 (_count t +
            Z.of_nat (count_occ bool_dec (poll reads t w).1.1 true)).
Proof.
  induction reads as [|[ms us] rest IH]; intros t w Hc.
  - cbn. rewrite Z.add_0_r, wrap32_small by assumption. reflexivity.
  - cbn [poll].
    destruct (elapsed_cases ms us t w)
      as [He | (t' & w' & He & _ & _ & Hc' & _)]; rewrite He.
    + specialize (IH t w Hc).
      destruct (poll rest t w) as [[more t2] w2]. cbn in *. exact IH.
    + assert (Hu : u32 (_count t')) by (rewrite Hc'; apply wrap32_range).
      specialize (IH t' w' Hu).
      destruct (poll rest t' w') as [[more t2] w2]. cbn in *.
      rewrite IH, Hc', wrap32_add_l. f_equal. lia.
Qed.

(** X3: the comparison of [elapsed()] is right across a wrap of the
    millisecond counter: when [delta] ticks (fewer than 2^32) have passed
    since [pMillis], whatever the counter reads now, a running timer
    fires exactly when [delta] reaches the interval, and then records
    [delta] as the duration of the event. *)
Theorem elapsed_across_clock_wrap (ms us delta : Z) t w :
  0 <= delta < 2 ^ 32 -> ms = wrap32 (pMillis t + delta) ->
  _state t = true ->
  (elapsed ms us t w).1.1 = (_timelapse t <=? delta) /\
  (_timelapse t <= delta ->
   _lastElapsedTime (elapsed ms us t w).1.2 = delta /\
   pMillis (elapsed ms us t w).1.2 = ms).
Proof.
  intros Hd -> Hrun.
  pose proof (wrap32_diff (pMillis t) delta Hd) as Hw.
  destruct t as [lapse pm cnt st start rep pu last ecb first ring idx cb].
  fields. subst st. unfold elapsed. assign. rewrite Hw.
  destruct (Z.leb_spec lapse delta) as [Hle|Hlt].
  - split; [reflexivity|]. intros _. cbn [fst snd].
    destruct ((0 <? rep) && (rep <=? wrap32 (cnt + 1))); split; reflexivity.
  - split; [reflexivity|]. lia.
Qed.

(** X4: an event is reported once.  After [elapsed()] has fired at a
    tick, a further call made before one more interval has passed
    returns false and changes nothing, so with a positive interval a
    second call at the same tick never fires.  With an interval of 0 a
    running timer fires at every call. *)
Theorem elapsed_fires_once_per_interval (ms us : Z) t w :
  _state t = true -> _timelapse t <= wrap32 (ms - pMillis t) ->
  exists t' w',
    elapsed ms us t w = (true, t', w') /\
    (forall ms2 us2 w2,
       wrap32 (ms2 - ms) < _timelapse t ->
       elapsed ms2 us2 t' w2 = (false, t', w2)) /\
    (0 < _timelapse t -> forall us2 w2,
       elapsed ms us2 t' w2 = (false, t', w2)) /\
    (_timelapse t = 0 -> _state t' = true -> forall ms2 us2 w2,
       (elapsed ms2 us2 t' w2).1.1 = true).
Proof.
  intros Hrun Hdue.
  destruct (elapsed_fires ms us t w Hrun Hdue)
    as (t' & w' & He & _ & _ & Hl & Hp & _).
  exists t', w'. split; [exact He|].
  assert (Hquiet : forall ms2 us2 w2,
            wrap32 (ms2 - ms) < _timelapse t ->
            elapsed ms2 us2 t' w2 = (false, t', w2)).
  { intros ms2 us2 w2 Hlt. destruct (_state t') eqn:Hst.
    - apply elapsed_early; [assumption|]. rewrite Hp, Hl. exact Hlt.
    - apply elapsed_paused. assumption. }
  split; [exact Hquiet|]. split.
  - intros Hpos us2 w2. apply Hquiet.
    rewrite Z.sub_diag. change (wrap32 0) with 0. exact Hpos.
  - intros Hz Hst ms2 us2 w2.
    destruct (elapsed_fires ms2 us2 t' w2 Hst) as (t2 & w3 & He2 & _).
    + rewrite Hl, Hz. apply wrap32_range.
    + rewrite He2. reflexivity.
Qed.

(** X5: after [runOnce()], whatever the sequence of calls of
    [elapsed()] that follows, at most one of them returns true (the
    count being below 2^32 - 1, so that it does not wrap to 0). *)
Theorem runOnce_fires_at_most_once (reads : list (Z * Z)) t w :
  0 <= _count t < 2 ^ 32 - 1 ->
  (count_occ bool_dec (poll reads (runOnce t) w).1.1 true <= 1)%nat.
Proof.
  intros Hc.
  assert (Hgen : forall t0 w0,
            _state t0 = true -> _repeatCount t0 = 1 ->
            0 <= _count t0 < 2 ^ 32 - 1 ->
            (count_occ bool_dec (poll reads t0 w0).1.1 true <= 1)%nat).
  { clear t w Hc.
    induction reads as [|[ms us] rest IH]; intros t w Hrun Hr Hc.
    - cbn. lia.
    - cbn [poll].
      destruct (elapsed_cases ms us t w)
        as [He | (t' & w' & He & _ & _ & Hc' & _ & _ & _ & Hs)];
        rewrite He.
      + specialize (IH t w Hrun Hr Hc).
        destruct (poll rest t w) as [[more t2] w2]. cbn in *. exact IH.
      + assert (Hoff : _state t' = false).
        { rewrite Hs, Hc', Hr.
          rewrite wrap32_small by (unfold u32; lia).
          replace (1 <=? _count t + 1) with true
            by (symmetry; apply Z.leb_le; lia).
          reflexivity. }
        rewrite (poll_paused rest t' w' Hoff). cbn.
        rewrite count_occ_all_false. lia. }
  apply Hgen.
  - destruct t. reflexivity.
  - destruct t. reflexivity.
  - destruct t. exact Hc.
Qed.

(** X6: with a repeat limit above the count, an event takes one off
    what [getRemainingCount()] reports, and the timer is stopped by the
    event exactly when nothing remains. *)
Theorem getRemainingCount_counts_down (ms us : Z) t w :
  _state t = true -> _timelapse t <= wrap32 (ms - pMillis t) ->
  0 <= _count t < _repeatCount t -> _repeatCount t < 2 ^ 32 ->
  getRemainingCount (elapsed ms us t w).1.2 = getRemainingCount t - 1 /\
  (_state (elapsed ms us t w).1.2 = false <->
   getRemainingCount (elapsed ms us t w).1.2 = 0).
Proof.
  intros Hrun Hdue Hc Hr.
  destruct (elapsed_fires ms us t w Hrun Hdue)
    as (t' & w' & He & Hc' & Hr' & _ & _ & Hs).
  rewrite He. cbn [fst snd].
  rewrite wrap32_small in Hc' by (unfold u32; lia).
  unfold getRemainingCount. rewrite Hr', Hc', Hs, Hc'.
  destruct (Z.ltb_spec 0 (_repeatCount t)); [|lia].
  destruct (Z.ltb_spec (_count t) (_repeatCount t)); [|lia].
  cbn [andb].
  rewrite (wrap32_small (_repeatCount t - _count t)) by (unfold u32; lia).
  destruct (Z.ltb_spec (_count t + 1) (_repeatCount t)).
  - rewrite wrap32_small by (unfold u32; lia).
    destruct (Z.leb_spec (_repeatCount t) (_count t + 1)); [lia|].
    cbn. split; [lia|]. split; [discriminate|lia].
  - destruct (Z.leb_spec (_repeatCount t) (_count t + 1)); [|lia].
    cbn. split; [lia|]. split; reflexivity.
Qed.

(** ** Queries *)

(** X7: [isOverdue()] is false at the tick of a [reset()], a
    [restart()] or a [fullReset()], and, for an interval below 2^31 (so
    that its double fits 32 bits), a timer that is overdue is one on
    which [elapsed()] fires at the same tick. *)
Theorem isOverdue_after_reset_and_due (ms us : Z) t w :
  isOverdue ms (reset ms us t) = false /\
  isOverdue ms (restart ms us t) = false /\
  isOverdue ms (fullReset ms us t) = false /\
  (0 <= _timelapse t < 2 ^ 31 -> isOverdue ms t = true ->
   (elapsed ms us t w).1.1 = true).
Proof.
  assert (Hz : forall x, (wrap32 x <? wrap32 (ms - ms)) = false).
  { intros x. rewrite Z.sub_diag. change (wrap32 0) with 0.
    pose proof (wrap32_range x) as Hx. unfold u32 in Hx.
    apply Z.ltb_ge. lia. }
  destruct t as [lapse pm cnt st start rep pu last ecb first ring idx cb].
  repeat apply conj.
  - unfold isOverdue, reset. assign. rewrite Hz. apply andb_false_r.
  - unfold isOverdue, restart, reset. assign. apply Hz.
  - unfold isOverdue, fullReset. assign. apply Hz.
  - fields. intros Hl. unfold isOverdue. fields.
    intros [-> Hov]%andb_true_iff. apply Z.ltb_lt in Hov.
    rewrite wrap32_small in Hov by (unfold u32; lia).
    destruct (elapsed_fires ms us
                (mkTimer lapse pm cnt true start rep pu last ecb first
                   ring idx cb) w eq_refl) as (t' & w' & He & _).
    + fields. lia.
    + rewrite He. reflexivity.
Qed.

(** X8: [elapsedInterval()] with the timer's own interval and
    [elapsedSince()] with the timer's own reference tell, without
    changing the timer, what [elapsed()] would answer at that tick on a
    running timer. *)
Theorem peek_agrees_with_elapsed (ms us : Z) t w :
  _state t = true ->
  elapsedInterval ms (_timelapse t) t = (elapsed ms us t w).1.1 /\
  elapsedSince ms (pMillis t) t = (elapsed ms us t w).1.1.
Proof.
  intros Hrun. unfold elapsedInterval, elapsedSince.
  destruct (Z.leb_spec (_timelapse t) (wrap32 (ms - pMillis t)))
    as [Hle|Hlt].
  - destruct (elapsed_fires ms us t w Hrun Hle) as (t' & w' & He & _).
    rewrite He. split; reflexivity.
  - rewrite elapsed_early by assumption. split; reflexivity.
Qed.

(** X9: [remainingTime()] never returns more than the interval, and on
    a running timer that is not yet due, read at one tick, what remains
    and what [getElapsedTime()] reports add up to the interval. *)
Theorem remainingTime_complements_elapsed (ms us ms' : Z) t w :
  u32 (_timelapse t) ->
  0 <= (remainingTime ms us ms' t w).1.1 <= _timelapse t /\
  (_state t = true -> wrap32 (ms - pMillis t) < _timelapse t ->
   (remainingTime ms us ms t w).1.1 + getElapsedTime ms t = _timelapse t).
Proof.
  intros Hl. unfold u32 in Hl. split.
  - unfold remainingTime. destruct (_state t) eqn:Hst; cbn [negb fst].
    + destruct (elapsed_cases ms us t w)
        as [He | (t' & w' & He & _)]; rewrite He.
      * pose proof (wrap32_range (ms' - pMillis t)) as He'.
        unfold u32 in He'.
        destruct (Z.ltb_spec (wrap32 (ms' - pMillis t)) (_timelapse t));
          cbn [fst]; [|lia].
        rewrite wrap32_small by (unfold u32; lia). lia.
      * cbn [fst]. lia.
    + lia.
  - intros Hrun Hlt. unfold remainingTime, getElapsedTime.
    rewrite Hrun. cbn [negb]. rewrite elapsed_early by assumption.
    pose proof (wrap32_range (ms - pMillis t)) as He. unfold u32 in He.
    destruct (Z.ltb_spec (wrap32 (ms - pMillis t)) (_timelapse t)); [|lia].
    cbn [fst]. rewrite wrap32_small by (unfold u32; lia). lia.
Qed.

(** X10: [toggleRepeat()] leaves a repeat limit of 0 or 1; toggling
    twice gives back a limit of 0 or 1 and turns any greater limit
    into 1. *)
Theorem toggleRepeat_twice t :
  (_repeatCount (toggleRepeat t) = 0 \/
   _repeatCount (toggleRepeat t) = 1) /\
  _repeatCount (toggleRepeat (toggleRepeat t)) =
    (if _repeatCount t =? 0 then 0 else 1) /\
  (_repeatCount t = 0 \/ _repeatCount t = 1 ->
   toggleRepeat (toggleRepeat t) = t).
Proof.
  destruct t as [lapse pm cnt st start rep pu last ecb first ring idx cb].
  unfold toggleRepeat. assign.
  destruct (Z.eqb_spec rep 0) as [->|Hne]; cbn.
  - repeat split; auto.
  - repeat split; auto. intros [H | ->]; [contradiction|reflexivity].
Qed.

(** ** Pausing *)

(** X11: [pauseAndResumeLater()] keeps the elapsed time over a pause.
    Called on a running timer it stops it and hands out the time elapsed;
    called again with that value, when it is above 0, it restarts the
    timer with the reference moved so that [getElapsedTime()] reports
    the same value at the tick of the restart, and hands back 0.  When
    the value handed out was 0 the second call leaves the timer
    stopped. *)
Theorem pauseAndResumeLater_round_trip (ms us ms2 us2 out0 : Z) t :
  _state t = true ->
  let e := wrap32 (ms - pMillis t) in
  let paused := (pauseAndResumeLater ms us out0 t).2 in
  (pauseAndResumeLater ms us out0 t).1 = e /\
  _state paused = false /\
  (0 < e ->
   (pauseAndResumeLater ms2 us2 e paused).1 = 0 /\
   _state (pauseAndResumeLater ms2 us2 e paused).2 = true /\
   getElapsedTime ms2 (pauseAndResumeLater ms2 us2 e paused).2 = e) /\
  (e = 0 -> pauseAndResumeLater ms2 us2 e paused = (0, paused)).
Proof.
  destruct t as [lapse pm cnt st start rep pu last ecb first ring idx cb].
  fields. intros ->. unfold pauseAndResumeLater. assign.
  set (e := wrap32 (ms - pm)).
  assert (He : 0 <= e < 2 ^ 32) by apply wrap32_range.
  split; [reflexivity|]. split; [reflexivity|]. split.
  - intros Hpos. destruct (Z.ltb_spec 0 e); [|lia].
    split; [reflexivity|]. split; [reflexivity|].
    unfold wrap32. rewrite Zminus_mod_idemp_r.
    replace (ms2 - (ms2 - e)) with e by lia.
    apply Z.mod_small. exact He.
  - intros Hz. rewrite Hz. reflexivity.
Qed.

(** X12: [countdown()] is not an event of the timer: it leaves the event
    count, the last duration, the ring and its index, the repeat limit
    and the microsecond reference as they were, and the only callback it
    can call is its own argument, never the ones set on the timer. *)
Theorem countdown_is_no_event (ms ms' duration : Z) cb t w :
  let r := countdown ms ms' duration cb t w in
  _count r.1.2 = _count t /\
  _lastElapsedTime r.1.2 = _lastElapsedTime t /\
  _elapsedTimes r.1.2 = _elapsedTimes t /\
  _elapsedIndex r.1.2 = _elapsedIndex t /\
  _repeatCount r.1.2 = _repeatCount t /\
  _pMicros r.1.2 = _pMicros t /\
  _startTime r.1.2 = _startTime t /\
  (r.2 = w \/ r.2 = call cb w).
Proof.
  destruct t as [lapse pm cnt st start rep pu last ecb first ring idx cb0].
  unfold countdown. assign.
  destruct st; cbn [negb]; branches; cbn; repeat split; auto.
Qed.

(** ** The three checks and the interrupt against each other *)

(** X13: on whole seconds the check in seconds is the check in
    milliseconds: when the interval, the reference and the clock are
    multiples of 1000 ms and the clock has not wrapped since the
    reference, [elapsedSeconds()] returns what [elapsed()] returns and
    leaves the same timer and the same world. *)
Theorem elapsedSeconds_on_whole_seconds (a b c us : Z) t w :
  _timelapse t = 1000 * c -> pMillis t = 1000 * a ->
  0 <= a <= b -> 1000 * b < 2 ^ 32 ->
  elapsedSeconds (1000 * b) (1000 * b) us t w = elapsed (1000 * b) us t w.
Proof.
  destruct t as [lapse pm cnt st start rep pu last ecb first ring idx cb].
  fields. intros -> -> Hab Hb.
  unfold elapsedSeconds, elapsed. assign.
  rewrite !(Z.mul_comm 1000), !Z.div_mul by lia.
  rewrite (wrap32_small (b - a)) by (unfold u32; lia).
  replace (b * 1000 - a * 1000) with ((b - a) * 1000) by lia.
  rewrite (wrap32_small ((b - a) * 1000)) by (unfold u32; lia).
  destruct st; cbn; [|reflexivity].
  destruct (Z.leb_spec c (b - a)), (Z.leb_spec (c * 1000) ((b - a) * 1000));
    try lia; reflexivity.
Qed.

(** X14: on a running timer with the zero-argument callback set, an
    interrupt that comes when the interval has passed, the clock being
    read at one tick, leaves the timer and the world as a successful
    [elapsed()] does.  The handler does not look at the interval: it
    counts an event also when the interval has not passed. *)
Theorem interrupt_agrees_with_elapsed (ms us : Z) t w :
  _callback t <> None -> _state t = true ->
  (_timelapse t <= wrap32 (ms - pMillis t) ->
   interruptHandler ms ms us (Some t) w =
     (Some (elapsed ms us t w).1.2, (elapsed ms us t w).2)) /\
  (forall t', (interruptHandler ms ms us (Some t) w).1 = Some t' ->
   _count t' = wrap32 (_count t + 1)).
Proof.
  destruct t as [lapse pm cnt st start rep pu last ecb first ring idx cb].
  fields. intros Hcb ->. destruct cb as [f|]; [clear Hcb|congruence].
  split.
  - intros Hdue. unfold interruptHandler, elapsed. assign.
    destruct (Z.leb_spec lapse (wrap32 (ms - pm))); [|lia].
    destruct ((0 <? rep) && (rep <=? wrap32 (cnt + 1))); reflexivity.
  - intros t'. unfold interruptHandler. assign.
    destruct ((0 <? rep) && (rep <=? wrap32 (cnt + 1)));
      cbn; intros [= <-]; reflexivity.
Qed.

(** X15: the microsecond check is right across a wrap of the
    microsecond counter: when [delta] microseconds (fewer than 2^32)
    have passed since [_pMicros], a running timer fires exactly when
    [delta] reaches the interval, and the duration it records is
    [delta / 1000] milliseconds, 0 for an event that took less than a
    millisecond. *)
Theorem elapsedMicros_across_clock_wrap (us ms delta : Z) t w :
  0 <= delta < 2 ^ 32 -> us = wrap32 (_pMicros t + delta) ->
  _state t = true ->
  (elapsedMicros us ms t w).1.1 = (_timelapse t <=? delta) /\
  (_timelapse t <= delta ->
   _lastElapsedTime (elapsedMicros us ms t w).1.2 = delta / 1000 /\
   (delta < 1000 -> _lastElapsedTime (elapsedMicros us ms t w).1.2 = 0)).
Proof.
  intros Hd -> Hrun.
  pose proof (wrap32_diff (_pMicros t) delta Hd) as Hw.
  destruct t as [lapse pm cnt st start rep pu last ecb first ring idx cb].
  fields. subst st. unfold elapsedMicros. assign. rewrite Hw.
  destruct (Z.leb_spec lapse delta) as [Hle|Hlt].
  - split; [reflexivity|]. intros _. cbn [fst snd].
    destruct ((0 <? rep) && (rep <=? wrap32 (cnt + 1))); fields;
      (split; [reflexivity|]); intros Hsub; apply Z.div_small; lia.
  - split; [reflexivity|]. lia.
Qed.

(** X16: the reference of [getTotalElapsedTime()] and [isTimeUp()] is
    moved by no check, by no interrupt, by no countdown and by no
    [reset()]: the total they report at a tick is the same before and
    after.  After [fullReset()] the total at that tick is 0. *)
Theorem total_elapsed_is_kept (ms ms' us now duration out : Z)
    (cb : option (W -> W)) t w :
  getTotalElapsedTime now (elapsed ms us t w).1.2
    = getTotalElapsedTime now t /\
  getTotalElapsedTime now (elapsedSeconds ms ms' us t w).1.2
    = getTotalElapsedTime now t /\
  getTotalElapsedTime now (elapsedMicros us ms t w).1.2
    = getTotalElapsedTime now t /\
  (forall t', (interruptHandler ms ms' us (Some t) w).1 = Some t' ->
     getTotalElapsedTime now t' = getTotalElapsedTime now t) /\
  getTotalElapsedTime now (countdown ms ms' duration cb t w).1.2
    = getTotalElapsedTime now t /\
  getTotalElapsedTime now (remainingTime ms us ms' t w).1.2
    = getTotalElapsedTime now t /\
  getTotalElapsedTime now (reset ms us t) = getTotalElapsedTime now t /\
  getTotalElapsedTime now (pauseAndResumeLater ms us out t).2
    = getTotalElapsedTime now t /\
  getTotalElapsedTime ms (fullReset ms us t) = 0.
Proof.
  destruct t as [lapse pm cnt st start rep pu last ecb first ring idx cb0].
  unfold getTotalElapsedTime. repeat apply conj.
  - unfold elapsed. assign. branches; reflexivity.
  - unfold elapsedSeconds. assign. branches; reflexivity.
  - unfold elapsedMicros. assign. branches; reflexivity.
  - intros t'. unfold interruptHandler. fields.
    destruct cb0 as [f|]; assign; branches; cbn;
      intros [= <-]; reflexivity.
  - unfold countdown. assign. branches; reflexivity.
  - unfold remainingTime, elapsed. assign. branches; reflexivity.
  - reflexivity.
  - unfold pauseAndResumeLater. assign. branches; reflexivity.
  - unfold fullReset. assign. rewrite Z.sub_diag. reflexivity.
Qed.

(** ** The ring of samples *)

Lemma back_index_after_push (idx j : Z) :
  ((idx + 1) mod 10 - 1 - j) mod 10 = (idx - j) mod 10.
Proof.
  replace ((idx + 1) mod 10 - 1 - j) with ((idx + 1) mod 10 - (1 + j))
    by lia.
  rewrite Zminus_mod_idemp_l. f_equal. lia.
Qed.

Lemma older_samples_kept (ring : list Z) (idx d : Z) (n : nat) :
  forall i : Z,
  0 <= idx < 10 -> 0 <= i -> i + Z.of_nat n <= 9 ->
  map (fun j => default 0 (<[Z.to_nat idx := d]> ring
                             !! Z.to_nat (((idx + 1) mod 10 - 1 - j) mod 10)))
      (seqZ (i + 1) (Z.of_nat n)) =
  map (fun j => default 0 (ring !! Z.to_nat ((idx - 1 - j) mod 10)))
      (seqZ i (Z.of_nat n)).
Proof.
  induction n as [|n IH]; intros i Hx Hi Hn; [reflexivity|].
  rewrite !(seqZ_cons _ (Z.of_nat (S n))) by lia. cbn [map].
  replace (Z.pred (Z.of_nat (S n))) with (Z.of_nat n) by lia.
  replace (Z.succ (i + 1)) with (i + 1 + 1) by lia.
  replace (Z.succ i) with (i + 1) by lia.
  rewrite IH by lia. f_equal.
  rewrite back_index_after_push.
  replace (idx - (i + 1)) with (idx - 1 - i) by lia.
  rewrite list_lookup_insert_ne; [reflexivity|].
  assert (Hm : (idx - 1 - i) mod 10 <> idx).
  { intros Heq. pose proof (Z.div_mod (idx - 1 - i) 10 ltac:(lia)) as Hdm.
    rewrite Heq in Hdm. lia. }
  pose proof (Z.mod_pos_bound (idx - 1 - i) 10 ltac:(lia)). lia.
Qed.

(** X17: an event is pushed on the ring.  After a successful
    [elapsed()] on a timer whose ring has its ten slots, the most recent
    sample is the duration of that event and behind it come the samples
    that were the most recent before, up to nine of them; so
    [getAverageElapsedTime(1)] then returns the duration of the event
    (the count not wrapping to 0). *)
Theorem elapsed_pushes_sample (ms us : Z) (n : nat) t w :
  0 <= _elapsedIndex t < 10 -> length (_elapsedTimes t) = 10%nat ->
  _state t = true -> _timelapse t <= wrap32 (ms - pMillis t) ->
  (n <= 9)%nat ->
  recent_samples (S n) (elapsed ms us t w).1.2 =
    wrap32 (ms - pMillis t) :: recent_samples n t /\
  (0 <= _count t < 2 ^ 32 - 1 ->
   getAverageElapsedTime 1 (elapsed ms us t w).1.2 =
     Some (wrap32 (ms - pMillis t))).
Proof.
  intros Hx Hlen Hrun Hdue Hn.
  rewrite (elapsed_due ms us t w Hx Hrun Hdue). cbn [fst snd].
  set (d := wrap32 (ms - pMillis t)).
  assert (Hd : u32 d) by apply wrap32_range.
  assert (Hhead : default 0 (<[Z.to_nat (_elapsedIndex t) := d]>
                               (_elapsedTimes t)
                             !! Z.to_nat (_elapsedIndex t)) = d).
  { rewrite list_lookup_insert_eq by (rewrite Hlen; lia). reflexivity. }
  assert (Hfirst : ((_elapsedIndex t + 1) mod 10 - 1 - 0) mod 10
                   = _elapsedIndex t).
  { rewrite back_index_after_push, Z.sub_0_r. apply Z.mod_small. lia. }
  split.
  - unfold recent_samples, sample_at. fields.
    rewrite (seqZ_cons 0) by lia. cbn [map].
    rewrite Hfirst, Hhead. f_equal.
    replace (Z.pred (Z.of_nat (S n))) with (Z.of_nat n) by lia.
    change (Z.succ 0) with (0 + 1).
    apply older_samples_kept; lia.
  - intros Hc. unfold getAverageElapsedTime. fields.
    rewrite (wrap32_small (_count t + 1)) by (unfold u32; lia).
    change (if 10 <? 1 then 10 else 1) with 1.
    destruct (Z.eqb_spec (_count t + 1) 0); [lia|].
    rewrite Z.min_l by lia. change (Z.to_nat (wrap8 1)) with 1%nat.
    cbn [average_loop]. fields.
    rewrite Z.rem_mod_nonneg by
      (pose proof (Z.mod_pos_bound (_elapsedIndex t + 1) 10); lia).
    replace ((_elapsedIndex t + 1) mod 10 - 1 - 0 + 10)
      with ((_elapsedIndex t + 1) mod 10 - 1 - 0 + 1 * 10) by lia.
    rewrite Z_mod_plus_full, Hfirst.
    rewrite wrap8_small by (unfold u8; lia).
    unfold sample_at. fields. rewrite Hhead. cbn [Z.add].
    rewrite wrap32_small by assumption.
    change (wrap8 1) with 1. unfold udiv. cbn. rewrite Z.div_1_r.
    reflexivity.
Qed.

End TimerLaws.

(** ** Conversions, waiting and printing *)

Section Utilities.

(** X18: seconds survive the way to milliseconds and back as long as
    the product fits 32 bits (at most 4294967 s); the way from
    milliseconds to seconds and back drops the part below a second. *)
Theorem convertTime_round_trip (time : Z) :
  (0 <= time <= 4294967 ->
   convertTime (convertTime time SecondsToMilliseconds)
     MillisecondsToSeconds = time) /\
  (0 <= time < 2 ^ 32 ->
   convertTime (convertTime time MillisecondsToSeconds)
     SecondsToMilliseconds = time - time mod 1000).
Proof.
  split; intros Ht; cbn [convertTime].
  - rewrite wrap32_small by (unfold u32; lia). apply Z.div_mul. lia.
  - pose proof (Z.mod_pos_bound time 1000 ltac:(lia)) as Hm.
    pose proof (Z.div_mod time 1000 ltac:(lia)) as Hdm.
    rewrite wrap32_small by (unfold u32; lia). lia.
Qed.

Lemma wait_loop_runs (start duration : Z) (before : list Z) :
  forall (ms : Z) (after : list Z),
  Forall (fun r => wrap32 (r - start) < duration) before ->
  duration <= wrap32 (ms - start) ->
  wait_loop start duration (before ++ ms :: after) = Some after.
Proof.
  induction before as [|r before IH]; intros ms after Hb Hms; cbn.
  - destruct (Z.ltb_spec (wrap32 (ms - start)) duration); [lia|].
    reflexivity.
  - apply Forall_cons in Hb as [Hr Hb].
    destruct (Z.ltb_spec (wrap32 (r - start)) duration); [|lia].
    apply IH; assumption.
Qed.

Lemma wait_loop_starves (start duration : Z) (reads : list Z) :
  Forall (fun r => wrap32 (r - start) < duration) reads ->
  wait_loop start duration reads = None.
Proof.
  induction reads as [|r reads IH]; intros Hb; cbn; [reflexivity|].
  apply Forall_cons in Hb as [Hr Hb].
  destruct (Z.ltb_spec (wrap32 (r - start)) duration); [|lia].
  apply IH. assumption.
Qed.

(** X19: [wait()] returns at the first read of the clock that is at
    least [duration] after the read it started with (differences of 32
    bits, so also across a wrap), having consumed the reads before it;
    it does not return as long as every read stays below. *)
Theorem wait_returns_at_first_late_read (duration start ms : Z)
    (before after : list Z) :
  Forall (fun r => wrap32 (r - start) < duration) before ->
  (duration <= wrap32 (ms - start) ->
   wait duration (start :: before ++ ms :: after) = Some after) /\
  wait duration (start :: before) = None.
Proof.
  intros Hb. split.
  - intros Hms. cbn [wait]. apply wait_loop_runs; assumption.
  - cbn [wait]. apply wait_loop_starves. assumption.
Qed.

End Utilities.

Module PrintingLaws.

Import Format FormatFacts.

(** X20: through the first day of elapsed time, and given a buffer of
    at least 9 bytes, [formatElapsedTime()] writes the elapsed seconds
    as [HH:MM:SS]; on a stopped timer it writes ["00:00:00"]. *)
Theorem formatElapsedTime_first_day {W : Type} (int_bits ms : Z)
    (buffer : string) (size : nat) (t : timecontrol W) :
  int_bits = 16 \/ int_bits = 32 -> (9 <= size)%nat ->
  getElapsedTime ms t / 1000 < 86400 ->
  formatElapsedTime int_bits ms buffer size t
    = hms (getElapsedTime ms t / 1000) /\
  (_state t = false ->
   formatElapsedTime int_bits ms buffer size t = "00:00:00"%string).
Proof.
  intros Hib Hsize Hday.
  assert (Hmain : formatElapsedTime int_bits ms buffer size t
                  = hms (getElapsedTime ms t / 1000)).
  { unfold formatElapsedTime, hms.
    set (sec := getElapsedTime ms t / 1000) in *.
    assert (Hsec : 0 <= sec).
    { subst sec. apply Z.div_pos; [|lia]. unfold getElapsedTime.
      destruct (_state t); [apply wrap32_range|lia]. }
    change SECONDS_PER_HOUR with 3600.
    change SECONDS_PER_MINUTE with 60.
    rewrite (Z.mod_small sec 86400) by lia.
    assert (Hh : 0 <= sec / 3600 < 24).
    { split; [apply Z.div_pos; lia|apply Z.div_lt_upper_bound; lia]. }
    assert (Hm : 0 <= sec mod 3600 / 60 < 60).
    { pose proof (Z.mod_pos_bound sec 3600).
      split; [apply Z.div_pos; lia|apply Z.div_lt_upper_bound; lia]. }
    assert (Hc : 0 <= sec mod 60 < 60) by (apply Z.mod_pos_bound; lia).
    rewrite !wrap8_small by (unfold u8; lia).
    rewrite !as_int_small by (assumption || lia).
    destruct size as [|size]; [lia|].
    unfold snprintf. apply substring_whole.
    rewrite !length_append, !fmt_02d_length by lia. cbn. lia. }
  split; [exact Hmain|].
  intros Hoff. rewrite Hmain. unfold getElapsedTime. rewrite Hoff.
  reflexivity.
Qed.

End PrintingLaws.

(** * The further properties, run on the sketch *)

Module LawRuns.

Import Format Sketch.

Local Ltac range := unfold u32; cbn; lia.
Local Ltac between :=
  split; [vm_compute; discriminate | vm_compute; reflexivity].

Lemma methods_keep_invariant_run :
  wf (elapsed 1000 1000000 both_callbacks []).1.2 /\
  wf (countdown 0 4000 5000 (Some finished) both_callbacks []).1.2 /\
  wf (fullReset 7 7000 both_callbacks).
Proof.
  assert (Hwf : wf both_callbacks)
    by (constructor; cbn; try reflexivity;
        try (unfold u32; lia); repeat constructor; unfold u32; lia).
  destruct (methods_keep_invariant 1000 1000 1000000 5000 0
              (Some finished) both_callbacks [] Hwf)
    as (H1 & _); [range|range|range|range|].
  destruct (methods_keep_invariant 0 4000 1000000 5000 0
              (Some finished) both_callbacks [] Hwf)
    as (_ & _ & _ & _ & H5 & _); [range|range|range|range|].
  destruct (methods_keep_invariant 7 7 7000 5000 0
              (Some finished) both_callbacks [] Hwf)
    as (_ & _ & _ & _ & _ & _ & H7 & _); [range|range|range|range|].
  repeat apply conj; assumption.
Defined.

Lemma constructors_establish_invariant_run :
  wf (timecontrol_full 5 5000 1000 false 3 : timecontrol world) /\
  getAverageElapsedTime 0 (timecontrol_default 5 5000 : timecontrol world)
    = Some 0.
Proof.
  destruct (constructors_establish_invariant (W := world)
              5 5000 1000 3 false 0)
    as (_ & _ & H3 & H4 & _); [range|range|range|range|].
  split; assumption.
Defined.

Lemma poll_counts_events_run :
  _count (poll [(500, 0); (1000, 0); (1500, 0); (2000, 0)]
            both_callbacks []).1.2 = 2.
Proof.
  rewrite (poll_counts_events [(500, 0); (1000, 0); (1500, 0); (2000, 0)]
             both_callbacks []); [reflexivity|range].
Defined.

Lemma elapsed_across_clock_wrap_run :
  (elapsed 204 0 before_wrap []).1.1 = true /\
  _lastElapsedTime (elapsed 204 0 before_wrap []).1.2 = 500.
Proof.
  destruct (elapsed_across_clock_wrap 204 0 500 before_wrap [])
    as [Hf Hd]; [lia|reflexivity|reflexivity|].
  split; [rewrite Hf; reflexivity|]. apply Hd. cbn. lia.
Defined.

Lemma elapsed_fires_once_per_interval_run :
  exists t' w',
    elapsed 1000 0 both_callbacks [] = (true, t', w') /\
    elapsed 1000 1 t' w' = (false, t', w') /\
    elapsed 1999 2 t' w' = (false, t', w').
Proof.
  destruct (elapsed_fires_once_per_interval 1000 0 both_callbacks []
              eq_refl) as (t' & w' & He & Hq & Hsame & _).
  - vm_compute. discriminate.
  - exists t', w'. split; [exact He|]. split.
    + apply Hsame. cbn. lia.
    + apply Hq. vm_compute. reflexivity.
Defined.

Lemma runOnce_fires_at_most_once_run :
  (count_occ bool_dec
     (poll [(1000, 0); (2000, 0); (3000, 0)]%Z
        (runOnce both_callbacks) []).1.1
     true <= 1)%nat.
Proof.
  apply (runOnce_fires_at_most_once [(1000, 0); (2000, 0); (3000, 0)]
           both_callbacks []).
  cbn. lia.
Defined.

Lemma getRemainingCount_counts_down_run :
  getRemainingCount three_shots = 3 /\
  getRemainingCount (elapsed 1000 0 three_shots []).1.2 = 2.
Proof.
  split; [reflexivity|].
  destruct (getRemainingCount_counts_down 1000 0 three_shots [])
    as [H _].
  - reflexivity.
  - vm_compute. discriminate.
  - cbn. lia.
  - cbn. lia.
  - rewrite H. reflexivity.
Defined.

Lemma isOverdue_after_reset_and_due_run :
  isOverdue 2001 both_callbacks = true /\
  (elapsed 2001 0 both_callbacks []).1.1 = true /\
  isOverdue 2001 (restart 2001 0 both_callbacks) = false.
Proof.
  destruct (isOverdue_after_reset_and_due 2001 0 both_callbacks [])
    as (_ & Hr & _ & Hd).
  split; [reflexivity|]. split; [|exact Hr].
  apply Hd; [cbn; lia|reflexivity].
Defined.

Lemma peek_agrees_with_elapsed_run :
  elapsedInterval 999 (_timelapse both_callbacks) both_callbacks
    = (elapsed 999 0 both_callbacks []).1.1 /\
  elapsedInterval 1000 (_timelapse both_callbacks) both_callbacks
    = (elapsed 1000 0 both_callbacks []).1.1.
Proof.
  split.
  - apply (peek_agrees_with_elapsed 999 0 both_callbacks []). reflexivity.
  - apply (peek_agrees_with_elapsed 1000 0 both_callbacks []). reflexivity.
Defined.

Lemma remainingTime_complements_elapsed_run :
  (remainingTime 400 0 400 both_callbacks []).1.1
    + getElapsedTime 400 both_callbacks = 1000.
Proof.
  destruct (remainingTime_complements_elapsed 400 0 400 both_callbacks [])
    as [_ H]; [range|].
  apply H; [reflexivity|vm_compute; reflexivity].
Defined.

Lemma toggleRepeat_twice_run :
  toggleRepeat (toggleRepeat one_shot) = one_shot /\
  _repeatCount (toggleRepeat (toggleRepeat three_shots)) = 1.
Proof.
  destruct (toggleRepeat_twice one_shot) as (_ & _ & H1).
  destruct (toggleRepeat_twice three_shots) as (_ & H3 & _).
  split; [apply H1; right; reflexivity|exact H3].
Defined.

Lemma pauseAndResumeLater_round_trip_run :
  (pauseAndResumeLater 400 0 0 both_callbacks).1 = 400 /\
  getElapsedTime 9000
    (pauseAndResumeLater 9000 0 400
       (pauseAndResumeLater 400 0 0 both_callbacks).2).2 = 400.
Proof.
  destruct (pauseAndResumeLater_round_trip 400 0 9000 0 0 both_callbacks
              eq_refl) as (H1 & _ & H3 & _).
  split; [exact H1|].
  destruct H3 as (_ & _ & H); [vm_compute; reflexivity|].
  exact H.
Defined.

Lemma elapsedSeconds_on_whole_seconds_run :
  elapsedSeconds 3000 3000 0 both_callbacks []
    = elapsed 3000 0 both_callbacks [].
Proof.
  apply (elapsedSeconds_on_whole_seconds 0 3 1 0 both_callbacks []);
    [reflexivity|reflexivity|lia|lia].
Defined.

Lemma interrupt_agrees_with_elapsed_run :
  interruptHandler 1000 1000 0 (Some both_callbacks) []
    = (Some (elapsed 1000 0 both_callbacks []).1.2,
       (elapsed 1000 0 both_callbacks []).2).
Proof.
  destruct (interrupt_agrees_with_elapsed 1000 0 both_callbacks [])
    as [H _]; [discriminate|reflexivity|].
  apply H. vm_compute. discriminate.
Defined.

Lemma elapsedMicros_across_clock_wrap_run :
  (elapsedMicros 1500 2 (timecontrol_lapse 0 0 1000) ([] : world)).1.1
    = true /\
  _lastElapsedTime
    (elapsedMicros 1500 2 (timecontrol_lapse 0 0 1000) ([] : world)).1.2
    = 1.
Proof.
  destruct (elapsedMicros_across_clock_wrap 1500 2 1500
              (timecontrol_lapse 0 0 1000) ([] : world))
    as [Hf Hd]; [lia|reflexivity|reflexivity|].
  split; [rewrite Hf; reflexivity|].
  destruct Hd as [Hd _]; [cbn; lia|]. rewrite Hd. reflexivity.
Defined.

Lemma total_elapsed_is_kept_run :
  getTotalElapsedTime 5000 (elapsed 1000 0 both_callbacks []).1.2 = 5000
  /\
  (forall t',
     (interruptHandler 1000 1000 0 (Some both_callbacks) []).1 = Some t' ->
     getTotalElapsedTime 5000 t' = 5000).
Proof.
  destruct (total_elapsed_is_kept 1000 1000 0 5000 0 0 None
              both_callbacks []) as (H1 & _ & _ & H4 & _).
  split.
  - rewrite H1. reflexivity.
  - intros t' Ht. rewrite (H4 t' Ht). reflexivity.
Defined.

Lemma elapsed_pushes_sample_run :
  recent_samples 2 (elapsed 250 0 after_one_event []).1.2 = [150; 100] /\
  getAverageElapsedTime 1 (elapsed 250 0 after_one_event []).1.2
    = Some 150.
Proof.
  destruct (elapsed_pushes_sample 250 0 1 after_one_event [])
    as [Hr Ha]; [between|reflexivity|reflexivity|
                 vm_compute; discriminate|lia|].
  split.
  - rewrite Hr. reflexivity.
  - rewrite Ha; [reflexivity|between].
Defined.

Lemma convertTime_round_trip_run :
  convertTime (convertTime 4294967 SecondsToMilliseconds)
    MillisecondsToSeconds = 4294967 /\
  convertTime (convertTime 1999 MillisecondsToSeconds)
    SecondsToMilliseconds = 1000.
Proof.
  destruct (convertTime_round_trip 4294967) as [H _].
  destruct (convertTime_round_trip 1999) as [_ H'].
  split; [apply H; lia|]. rewrite H' by lia. reflexivity.
Defined.

Lemma wait_returns_at_first_late_read_run :
  wait 100 [4294967290; 4294967295; 50; 94; 95] = Some [95] /\
  wait 100 [4294967290; 4294967295; 50] = None.
Proof.
  assert (Hb : Forall (fun r => wrap32 (r - 4294967290) < 100)
                 [4294967295; 50]).
  { repeat constructor; vm_compute; reflexivity. }
  destruct (wait_returns_at_first_late_read 100 4294967290 94
              [4294967295; 50] [95] Hb) as [H1 H2].
  split; [apply H1; vm_compute; discriminate|exact H2].
Defined.

Lemma formatElapsedTime_first_day_run :
  formatElapsedTime 16 3725000 "" 9 (timecontrol_lapse 0 0 1000 : timecontrol world)
    = "01:02:05"%string.
Proof.
  destruct (PrintingLaws.formatElapsedTime_first_day 16 3725000 "" 9
              (timecontrol_lapse 0 0 1000 : timecontrol world))
    as [H _]; [left; reflexivity|lia|vm_compute; reflexivity|].
  rewrite H. vm_compute. reflexivity.
Defined.

Lemma adjustTimelapse_in_range_run :
  adjustTimelapse (-1000) (timecontrol_lapse 0 0 500 : timecontrol world)
    = Some (set_timelapse 0 (timecontrol_lapse 0 0 500)) /\
  adjustTimelapse 250 (timecontrol_lapse 0 0 500 : timecontrol world)
    = Some (set_timelapse 750 (timecontrol_lapse 0 0 500)).
Proof.
  split.
  - rewrite (adjustTimelapse_in_range (-1000)
               (timecontrol_lapse 0 0 500 : timecontrol world));
      [reflexivity|cbn; lia|cbn; lia].
  - rewrite (adjustTimelapse_in_range 250
               (timecontrol_lapse 0 0 500 : timecontrol world));
      [reflexivity|cbn; lia|cbn; lia].
Defined.

Lemma adjustTimelapse_bound_run :
  0 <= _timelapse (set_timelapse 0 long_interval) < 2 ^ 31.
Proof.
  apply (adjustTimelapse_bound 1000 long_interval). reflexivity.
Defined.

Lemma getAverageElapsedTime_mean_run :
  getAverageElapsedTime 5 (elapsed 250 0 after_one_event []).1.2
    = Some 125.
Proof.
  rewrite (getAverageElapsedTime_mean 5
             (elapsed 250 0 after_one_event []).1.2);
    [reflexivity|between|lia|vm_compute; reflexivity].
Defined.

Lemma secToTime_short_run :
  secToTime 16 20863 = dhms 20863 /\ secToTime 32 3661 = "01:01:01"%string.
Proof.
  split.
  - apply FormatFacts.secToTime_short; [left; reflexivity|lia].
  - rewrite FormatFacts.secToTime_short; [reflexivity|right; reflexivity|lia].
Defined.

End LawRuns.
